(** * localboot/grub.go: GRUB configuration scanning and parsing

    A shallow embedding of [ParseGrubCfg], [unquote] and [ScanGrubConfigs]
    together with the pieces of the Go standard library they call
    ([strings.Split], [strings.TrimLeft], [strings.Fields], [strings.Join],
    [strings.Replace], [path.Join]).

    Go strings are byte sequences; they are modelled as [string], whose
    characters are the 256 [ascii] values. *)

From Stdlib Require Import String Ascii List ZArith Bool Arith Lia.
Import ListNotations.
Open Scope string_scope.
Open Scope nat_scope.

(* ------------------------------------------------------------------ *)
(** ** The Go [strings] package *)
(* ------------------------------------------------------------------ *)

Module strings.

(** [strings.Join(elems, sep)]. *)
Definition Join (elems : list string) (sep : string) : string :=
  String.concat sep elems.

(** [strings.Split(s, sep)] for a separator of one byte: the pieces
    between the occurrences of [sep]; always at least one piece. *)
Fixpoint Split (s : string) (sep : ascii) : list string :=
  match s with
  | EmptyString => [EmptyString]
  | String c r =>
      if Ascii.eqb c sep then EmptyString :: Split r sep
      else match Split r sep with
           | h :: t => String c h :: t
           | [] => [String c EmptyString]
           end
  end.

(** Membership of a byte in a cutset. *)
Fixpoint in_cutset (c : ascii) (cutset : string) : bool :=
  match cutset with
  | EmptyString => false
  | String d r => Ascii.eqb c d || in_cutset c r
  end.

(** [strings.TrimLeft(s, cutset)] for a cutset of ASCII bytes: the
    leading bytes contained in [cutset] are removed. *)
Fixpoint TrimLeft (s : string) (cutset : string) : string :=
  match s with
  | EmptyString => EmptyString
  | String c r => if in_cutset c cutset then TrimLeft r cutset else s
  end.

(** The table [asciiSpace] of package strings:
    ['\t'], ['\n'], ['\v'], ['\f'], ['\r'] and [' ']. *)
Definition asciiSpace (c : ascii) : bool :=
  let n := nat_of_ascii c in
  ((9 <=? n) && (n <=? 13)) || (n =? 32).

(** Number of bytes of the white space rune ([unicode.IsSpace]) whose
    UTF-8 encoding starts the string, [0] when there is none.  Besides
    the six ASCII bytes these are U+0085 and U+00A0 (two bytes, lead
    0xC2), U+1680 (0xE1 0x9A 0x80), U+2000..U+200A, U+2028, U+2029,
    U+202F (0xE2 0x80 ..), U+205F (0xE2 0x81 0x9F) and U+3000
    (0xE3 0x80 0x80). *)
Definition space_width (s : string) : nat :=
  match s with
  | EmptyString => 0
  | String c r =>
      if asciiSpace c then 1
      else
        let b0 := nat_of_ascii c in
        match r with
        | String d r' =>
            let b1 := nat_of_ascii d in
            if (b0 =? 194) && ((b1 =? 133) || (b1 =? 160)) then 2
            else
              match r' with
              | String e _ =>
                  let b2 := nat_of_ascii e in
                  if (b0 =? 225) && (b1 =? 154) && (b2 =? 128) then 3
                  else if (b0 =? 226) && (b1 =? 128)
                          && (((128 <=? b2) && (b2 <=? 138))
                              || (b2 =? 168) || (b2 =? 169) || (b2 =? 175))
                       then 3
                  else if (b0 =? 226) && (b1 =? 129) && (b2 =? 159) then 3
                  else if (b0 =? 227) && (b1 =? 128) && (b2 =? 128) then 3
                  else 0
              | EmptyString => 0
              end
        | EmptyString => 0
        end
  end.

(** A finished field is emitted only when it is not empty. *)
Definition flush (cur : string) : list string :=
  match cur with
  | EmptyString => []
  | _ => [cur]
  end.

(** The scan of [strings.Fields]: [cur] is the field being read, [skip]
    the number of bytes left of a multi-byte white space rune. *)
Fixpoint fields_scan (s : string) (skip : nat) (cur : string) : list string :=
  match s with
  | EmptyString => flush cur
  | String c r =>
      match skip with
      | S k => fields_scan r k cur
      | O =>
          match space_width s with
          | O => fields_scan r 0 (cur ++ String c EmptyString)
          | S k => flush cur ++ fields_scan r k EmptyString
          end
      end
  end.

(** [strings.Fields(s)]: the maximal runs of bytes that are not part of
    a white space rune. *)
Definition Fields (s : string) : list string :=
  fields_scan s 0 EmptyString.

(** The scan of [strings.Replace(s, old, new, -1)] for a non-empty
    [old]: matches are found left to right and do not overlap; [skip]
    counts the bytes of the current match still to pass. *)
Fixpoint replace_scan (s old new : string) (skip : nat) : string :=
  match s with
  | EmptyString => EmptyString
  | String c r =>
      match skip with
      | S k => replace_scan r old new k
      | O =>
          if String.prefix old s
          then new ++ replace_scan r old new (String.length old - 1)
          else String c (replace_scan r old new 0)
      end
  end.

(** [strings.Replace(s, old, new, n)] with [n < 0] (all occurrences). *)
Definition ReplaceAll (s old new : string) : string :=
  replace_scan s old new 0.

End strings.

(* ------------------------------------------------------------------ *)
(** ** The Go [path] package *)
(* ------------------------------------------------------------------ *)

Module path.

Definition slash : ascii := "/"%char.

(** The output buffer of [path.Clean] with the index [dotdot] below
    which [..] must not remove anything.  [out] holds the written bytes
    ([out.w] is its length). *)
Record lazybuf := { out : string; dotdot : nat }.

(** The backtracking loop of the [..] case, run on the reversed buffer:
    the head of [rev_out] is the byte at index [w].
<<
    out.w--
    for out.w > dotdot && out.index(out.w) != '/' { out.w-- }
>> *)
Fixpoint backtrack (rev_out : list ascii) (w dd : nat) : list ascii :=
  match rev_out with
  | [] => []
  | c :: r =>
      if (dd <? w) && negb (Ascii.eqb c slash)
      then backtrack r (w - 1) dd
      else r
  end.

(** One path element (the bytes between two slashes) of [path.Clean]. *)
Definition clean_elem (rooted : bool) (b : lazybuf) (e : string) : lazybuf :=
  let w := String.length (out b) in
  if String.eqb e "" then b
  else if String.eqb e "." then b
  else if String.eqb e ".." then
    if dotdot b <? w then
      {| out := string_of_list_ascii
                  (rev (backtrack (rev (list_ascii_of_string (out b)))
                                  (w - 1) (dotdot b)));
         dotdot := dotdot b |}
    else if negb rooted then
      let o := (if 0 <? w then out b ++ "/" else out b) ++ ".." in
      {| out := o; dotdot := String.length o |}
    else b
  else
    let o := if (rooted && negb (w =? 1)) || (negb rooted && negb (w =? 0))
             then out b ++ "/" else out b in
    {| out := o ++ e; dotdot := dotdot b |}.

(** [path.Clean(path)]. *)
Definition Clean (p : string) : string :=
  match p with
  | EmptyString => "."
  | String c _ =>
      let rooted := Ascii.eqb c slash in
      let init := if rooted then {| out := "/"; dotdot := 1 |}
                  else {| out := ""; dotdot := 0 |} in
      let b := fold_left (clean_elem rooted) (strings.Split p slash) init in
      match out b with
      | EmptyString => "."
      | o => o
      end
  end.

(** [path.Join(a, b)] with two elements: empty elements are ignored, the
    others are joined with a slash and the result is cleaned; the join
    of two empty elements is the empty string. *)
Definition Join (a b : string) : string :=
  match a, b with
  | EmptyString, EmptyString => ""
  | EmptyString, _ => Clean b
  | _, EmptyString => Clean a
  | _, _ => Clean (a ++ "/" ++ b)
  end.

End path.

(* ------------------------------------------------------------------ *)
(** ** Collaborators of package localboot *)
(* ------------------------------------------------------------------ *)

(** Modelled from the spec: the struct [bootconfig.BootConfig] of
    pkg/bootconfig, with the fields of the data model. *)
Record BootConfig := {
  Name : string;
  Kernel : string;
  KernelArgs : string;
  Initramfs : string;
  Multiboot : string;
  MultibootArgs : string;
  Modules : list string
}.

(** [new(bootconfig.BootConfig)]: every field has its zero value. *)
Definition new_BootConfig : BootConfig :=
  {| Name := ""; Kernel := ""; KernelArgs := ""; Initramfs := "";
     Multiboot := ""; MultibootArgs := ""; Modules := [] |}.

Definition set_Name (c : BootConfig) (v : string) : BootConfig :=
  {| Name := v; Kernel := Kernel c; KernelArgs := KernelArgs c;
     Initramfs := Initramfs c; Multiboot := Multiboot c;
     MultibootArgs := MultibootArgs c; Modules := Modules c |}.

Definition set_Kernel (c : BootConfig) (v : string) : BootConfig :=
  {| Name := Name c; Kernel := v; KernelArgs := KernelArgs c;
     Initramfs := Initramfs c; Multiboot := Multiboot c;
     MultibootArgs := MultibootArgs c; Modules := Modules c |}.

Definition set_KernelArgs (c : BootConfig) (v : string) : BootConfig :=
  {| Name := Name c; Kernel := Kernel c; KernelArgs := v;
     Initramfs := Initramfs c; Multiboot := Multiboot c;
     MultibootArgs := MultibootArgs c; Modules := Modules c |}.

Definition set_Initramfs (c : BootConfig) (v : string) : BootConfig :=
  {| Name := Name c; Kernel := Kernel c; KernelArgs := KernelArgs c;
     Initramfs := v; Multiboot := Multiboot c;
     MultibootArgs := MultibootArgs c; Modules := Modules c |}.

Definition set_Multiboot (c : BootConfig) (v : string) : BootConfig :=
  {| Name := Name c; Kernel := Kernel c; KernelArgs := KernelArgs c;
     Initramfs := Initramfs c; Multiboot := v;
     MultibootArgs := MultibootArgs c; Modules := Modules c |}.

Definition set_MultibootArgs (c : BootConfig) (v : string) : BootConfig :=
  {| Name := Name c; Kernel := Kernel c; KernelArgs := KernelArgs c;
     Initramfs := Initramfs c; Multiboot := Multiboot c;
     MultibootArgs := v; Modules := Modules c |}.

Definition set_Modules (c : BootConfig) (v : list string) : BootConfig :=
  {| Name := Name c; Kernel := Kernel c; KernelArgs := KernelArgs c;
     Initramfs := Initramfs c; Multiboot := Multiboot c;
     MultibootArgs := MultibootArgs c; Modules := v |}.

(** Modelled from the spec: the validity rule of pkg/bootconfig, which
    the parser only queries: a kernel path or an equivalent boot target
    (a multiboot image) is set.  The parser itself is parameterised by
    the predicate; this instance serves to run it. *)
Definition IsValid_spec (c : BootConfig) : bool :=
  negb (String.eqb (Kernel c) "") || negb (String.eqb (Multiboot c) "").

(** A Go [error] value, by its message. *)
Definition error := string.

(** The classification tags of pkg/crypto; only [crypto.ConfigData] is
    used here. *)
Inductive measurement := ConfigData.

(* ------------------------------------------------------------------ *)
(** ** Effects: diagnostics, measurements and nil dereferences *)
(* ------------------------------------------------------------------ *)

(** [type grubVersion int]; versions are only compared, never computed
    with. *)
Definition grubVersion := Z.
Definition grubV1 : grubVersion := 1%Z.
Definition grubV2 : grubVersion := 2%Z.

(** What a call leaves behind besides its result, in program order. *)
Inductive event :=
| LogInvalidVersion (ver : grubVersion)
    (* log.Printf("Warning: invalid GRUB version: %d", ver) *)
| LogTryingToRead (p : string)
    (* log.Printf("Trying to read %s", path) *)
| LogCannotOpen (p : string) (err : error)
    (* log.Printf("cannot open %s: %v", path, err) *)
| TryMeasureData (tag : measurement) (data : string) (p : string).
    (* crypto.TryMeasureData(crypto.ConfigData, grubcfg, path) *)

(** A computation emits events and then either returns a value or
    panics ([None]: a nil pointer is dereferenced). *)
Definition M (A : Type) : Type := (list event * option A)%type.

Definition ret {A} (a : A) : M A := ([], Some a).
Definition panic {A} : M A := ([], None).
Definition emit (e : event) : M unit := ([e], Some tt).

Definition bind {A B} (m : M A) (k : A -> M B) : M B :=
  match m with
  | (ev, None) => (ev, None)
  | (ev, Some a) => let (ev', r) := k a in ((ev ++ ev')%list, r)
  end.

Notation "x <- m ;; k" := (bind m (fun x => k))
  (at level 61, m at next level, right associativity).
Notation "m ;;; k" := (bind m (fun _ => k))
  (at level 61, right associativity).

(* ------------------------------------------------------------------ *)
(** ** grub.go *)
(* ------------------------------------------------------------------ *)

Definition Grub2Paths : list string :=
  [ "boot/grub2/grub.cfg"; "boot/grub2.cfg"; "grub2/grub.cfg"; "grub2.cfg" ].

Definition GrubLegacyPaths : list string :=
  [ "boot/grub/grub.cfg"; "boot/grub.cfg"; "grub/grub.cfg"; "grub.cfg" ].

(** The line separator ["\n"]. *)
Definition newline : ascii := "010"%char.

(** [unquote(ver, text)]. *)
Definition unquote (ver : grubVersion) (text : string) : string :=
  if Z.eqb ver grubV2 then strings.ReplaceAll text "\$" "$"
  else text.

(** The variables of the loop of [ParseGrubCfg]; [cfg] is a pointer,
    [None] being nil. *)
Record state := {
  bootconfigs : list BootConfig;
  inMenuEntry : bool;
  cfg : option BootConfig
}.

(** The state before the first line. *)
Definition initial : state :=
  {| bootconfigs := []; inMenuEntry := false; cfg := None |}.

(** An assignment through the pointer [cfg]; [None] when it is nil. *)
Definition through_cfg (st : state) (f : BootConfig -> BootConfig)
  : option state :=
  match cfg st with
  | Some c => Some {| bootconfigs := bootconfigs st;
                      inMenuEntry := inMenuEntry st;
                      cfg := Some (f c) |}
  | None => None
  end.

Definition is_linux (s : string) : bool :=
  String.eqb s "linux" || String.eqb s "linux16" || String.eqb s "linuxefi".

Definition is_initrd (s : string) : bool :=
  String.eqb s "initrd" || String.eqb s "initrd16" || String.eqb s "initrdefi".

Section Parser.

(** The method [IsValid] of pkg/bootconfig, a boolean function of the
    fields of the entry. *)
Variable IsValid : BootConfig -> bool.

(** [append(bootconfigs, *cfg)] guarded by [cfg.IsValid()]. *)
Definition save (bcs : list BootConfig) (c : BootConfig) : list BootConfig :=
  if IsValid c then (bcs ++ [c])%list else bcs.

(** The tokens of a line: [strings.Fields(strings.TrimLeft(line, " "))]. *)
Definition tokens (line : string) : list string :=
  strings.Fields (strings.TrimLeft line " ").

(** The body of the loop over the lines; [None] is a panic. *)
Definition parse_line (ver : grubVersion) (basedir : string)
    (st : state) (line : string) : option state :=
  match tokens line with
  | [] => Some st
  | s0 :: rest =>
      if String.eqb s0 "menuentry" then
        Some {| bootconfigs :=
                  match cfg st with
                  | Some c => save (bootconfigs st) c
                  | None => bootconfigs st
                  end;
                inMenuEntry := true;
                cfg := Some (set_Name new_BootConfig (strings.Join rest " ")) |}
      else if inMenuEntry st then
        match rest with
        | [] => Some st
        | s1 :: args =>
            if is_linux s0 then
              let cmdline := unquote ver (strings.Join args " ") in
              through_cfg st (fun c =>
                set_KernelArgs (set_Kernel c (path.Join basedir s1)) cmdline)
            else if is_initrd s0 then
              through_cfg st (fun c => set_Initramfs c (path.Join basedir s1))
            else if String.eqb s0 "multiboot" then
              let cmdline := unquote ver (strings.Join args " ") in
              through_cfg st (fun c =>
                set_MultibootArgs (set_Multiboot c (path.Join basedir s1))
                                  cmdline)
            else if String.eqb s0 "module" then
              let cmdline := strings.Join args " " in
              let cmdline := if Z.eqb ver grubV2
                             then strings.ReplaceAll cmdline "\$" "$"
                             else cmdline in
              let module := path.Join basedir s1 in
              let module := if negb (String.eqb cmdline "")
                            then module ++ " " ++ cmdline else module in
              through_cfg st (fun c =>
                set_Modules c (Modules c ++ [module])%list)
            else Some st
        end
      else Some st
  end.

(** The loop over the lines. *)
Fixpoint parse_lines (ver : grubVersion) (basedir : string)
    (lines : list string) (st : state) : option state :=
  match lines with
  | [] => Some st
  | line :: more =>
      match parse_line ver basedir st line with
      | Some st' => parse_lines ver basedir more st'
      | None => None
      end
  end.

(** The statements after the loop. *)
Definition finish (st : state) : option (list BootConfig) :=
  if inMenuEntry st then
    match cfg st with
    | Some c => Some (save (bootconfigs st) c)
    | None => None
    end
  else Some (bootconfigs st).

(** [ParseGrubCfg(ver, grubcfg, basedir)].  A nil slice and an empty
    one are both the empty list. *)
Definition ParseGrubCfg (ver : grubVersion) (grubcfg basedir : string)
  : M (list BootConfig) :=
  if negb (Z.eqb ver grubV1) && negb (Z.eqb ver grubV2) then
    emit (LogInvalidVersion ver) ;;; ret []
  else
    match parse_lines ver basedir (strings.Split grubcfg newline) initial with
    | Some st => match finish st with
                 | Some bcs => ret bcs
                 | None => panic
                 end
    | None => panic
    end.

(** [ioutil.ReadFile] on the file system of the call: the content, or
    the error. *)
Variable ReadFile : string -> string + error.

(** The body of the two loops of [ScanGrubConfigs], which differ in the
    version passed to the parser only. *)
Definition scan_candidate (ver : grubVersion) (basedir : string)
    (acc : list BootConfig) (grubpath : string) : M (list BootConfig) :=
  let p := path.Join basedir grubpath in
  emit (LogTryingToRead p) ;;;
  match ReadFile p with
  | inr err => emit (LogCannotOpen p err) ;;; ret acc
  | inl grubcfg =>
      emit (TryMeasureData ConfigData grubcfg p) ;;;
      cfgs <- ParseGrubCfg ver grubcfg basedir ;;
      ret (acc ++ cfgs)%list
  end.

(** A loop over a list of candidate paths. *)
Fixpoint scan_paths (ver : grubVersion) (basedir : string)
    (paths : list string) (acc : list BootConfig) : M (list BootConfig) :=
  match paths with
  | [] => ret acc
  | grubpath :: more =>
      acc' <- scan_candidate ver basedir acc grubpath ;;
      scan_paths ver basedir more acc'
  end.

(** [ScanGrubConfigs(basedir)]. *)
Definition ScanGrubConfigs (basedir : string) : M (list BootConfig) :=
  acc <- scan_paths grubV2 basedir Grub2Paths [] ;;
  scan_paths grubV1 basedir GrubLegacyPaths acc.

End Parser.

(* ------------------------------------------------------------------ *)
(** ** Vocabulary of the statements *)
(* ------------------------------------------------------------------ *)

(** The two values a caller may pass as version. *)
Definition valid_version (ver : grubVersion) : Prop :=
  ver = grubV1 \/ ver = grubV2.

(** The double quote character, and the one-byte strings used to build
    configuration texts. *)
Definition dquote : string := String "034"%char EmptyString.
Definition nl : string := String newline EmptyString.

(** Occurrence of a byte in a string. *)
Fixpoint has_byte (c : ascii) (s : string) : bool :=
  match s with
  | EmptyString => false
  | String d r => Ascii.eqb d c || has_byte c r
  end.

(** A string that is one line: it holds no line separator. *)
Definition one_line (s : string) : Prop := has_byte newline s = false.

(** Every byte of the string satisfies [p]. *)
Fixpoint all_bytes (p : ascii -> bool) (s : string) : bool :=
  match s with
  | EmptyString => true
  | String c r => p c && all_bytes p r
  end.

(** The first token of the line is [menuentry]. *)
Definition menuentry_line (line : string) : bool :=
  match tokens line with
  | s0 :: _ => String.eqb s0 "menuentry"
  | [] => false
  end.

(** The keywords [ParseGrubCfg] looks for. *)
Definition recognized (s0 : string) : bool :=
  String.eqb s0 "menuentry" || is_linux s0 || is_initrd s0
  || String.eqb s0 "multiboot" || String.eqb s0 "module".

(** Blank lines, and lines whose first token is no keyword. *)
Definition unrecognized_line (line : string) : bool :=
  match tokens line with
  | [] => true
  | s0 :: _ => negb (recognized s0)
  end.

(** The effect of a line on the entry under construction, read off
    [parse_line] in the state where [cfg] points to [c]. *)
Definition directive (ver : grubVersion) (basedir : string)
    (c : BootConfig) (line : string) : BootConfig :=
  match parse_line (fun _ => true) ver basedir
          {| bootconfigs := []; inMenuEntry := true; cfg := Some c |} line with
  | Some {| cfg := Some c' |} => c'
  | _ => c
  end.

(** A menu entry in the text: the [menuentry] line and the lines up to
    the next [menuentry] line. *)
Record block := { header : string; body : list string }.

Definition block_lines (b : block) : list string := header b :: body b.

Definition well_formed (b : block) : Prop :=
  menuentry_line (header b) = true /\ one_line (header b) /\
  Forall (fun l => menuentry_line l = false /\ one_line l) (body b).

(** The entry a block describes. *)
Definition entry_of (ver : grubVersion) (basedir : string) (b : block)
  : BootConfig :=
  fold_left (directive ver basedir) (body b)
    (set_Name new_BootConfig (strings.Join (tl (tokens (header b))) " ")).

(** The paths [ScanGrubConfigs] tries to read, in the order of the
    attempts. *)
Fixpoint attempts (evs : list event) : list string :=
  match evs with
  | [] => []
  | LogTryingToRead p :: more => p :: attempts more
  | _ :: more => attempts more
  end.

(** The entries of a call that returned; none when it panicked. *)
Definition entries (m : M (list BootConfig)) : list BootConfig :=
  match snd m with
  | Some bcs => bcs
  | None => []
  end.

(** The loop run on a list of lines, followed by the statements after
    it. *)
Definition run (IsValid : BootConfig -> bool) (ver : grubVersion)
    (basedir : string) (lines : list string) : M (list BootConfig) :=
  match parse_lines IsValid ver basedir lines initial with
  | Some st => match finish IsValid st with
               | Some bcs => ret bcs
               | None => panic
               end
  | None => panic
  end.

(** What the pending entry adds to the saved ones when it is tested. *)
Definition flushed (IsValid : BootConfig -> bool) (st : state)
  : list BootConfig :=
  match cfg st with
  | Some c => save IsValid (bootconfigs st) c
  | None => bootconfigs st
  end.

(** The states the loop goes through: [cfg] is nil exactly outside of a
    menu entry. *)
Inductive good : state -> Prop :=
| good_outside bcs :
    good {| bootconfigs := bcs; inMenuEntry := false; cfg := None |}
| good_inside bcs c :
    good {| bootconfigs := bcs; inMenuEntry := true; cfg := Some c |}.

(** The saved entries restricted to the valid ones. *)
Definition filter_state (IsValid : BootConfig -> bool) (st : state) : state :=
  {| bootconfigs := filter IsValid (bootconfigs st);
     inMenuEntry := inMenuEntry st;
     cfg := cfg st |}.

(** Occurrence of [old] as a substring. *)
Fixpoint contains (old s : string) : bool :=
  String.prefix old s ||
  match s with
  | EmptyString => false
  | String _ r => contains old r
  end.

(** The string a [module] line adds to [Modules], following the words
    of the specification: the module path joined with the base
    directory, then one space and the unescaped arguments when these are
    not empty.  Other lines add nothing. *)
Definition module_of (ver : grubVersion) (basedir line : string)
  : list string :=
  match tokens line with
  | s0 :: s1 :: args =>
      if String.eqb s0 "module" then
        let a := unquote ver (strings.Join args " ") in
        [ if String.eqb a "" then path.Join basedir s1
          else path.Join basedir s1 ++ " " ++ a ]
      else []
  | _ => []
  end.

(** Lines that assign the kernel, the initramfs or the multiboot
    fields: a keyword and at least one more token. *)
Definition sets_kernel (line : string) : bool :=
  match tokens line with
  | s0 :: _ :: _ => is_linux s0
  | _ => false
  end.

Definition sets_initramfs (line : string) : bool :=
  match tokens line with
  | s0 :: _ :: _ => is_initrd s0
  | _ => false
  end.

Definition sets_multiboot (line : string) : bool :=
  match tokens line with
  | s0 :: _ :: _ => String.eqb s0 "multiboot"
  | _ => false
  end.

(** The entries one candidate contributes to a scan. *)
Definition file_entries (IsValid : BootConfig -> bool)
    (ReadFile : string -> string + error) (ver : grubVersion)
    (basedir grubpath : string) : list BootConfig :=
  match ReadFile (path.Join basedir grubpath) with
  | inl grubcfg => entries (ParseGrubCfg IsValid ver grubcfg basedir)
  | inr _ => []
  end.

(** The events of one candidate: the attempt, then the diagnostic of
    the failed read or the measurement of the content. *)
Definition candidate_events (ReadFile : string -> string + error)
    (basedir grubpath : string) : list event :=
  let p := path.Join basedir grubpath in
  match ReadFile p with
  | inl grubcfg => [LogTryingToRead p; TryMeasureData ConfigData grubcfg p]
  | inr err => [LogTryingToRead p; LogCannotOpen p err]
  end.

(** *** Configurations of the testable properties *)

(** A [menuentry "X"] line, a [linux] line and an [initrd] line. *)
Definition sample_config : string :=
  "menuentry " ++ dquote ++ "X" ++ dquote ++ nl ++
  "linux /vmlinuz root=/dev/sda1" ++ nl ++
  "initrd /initrd.img".

(** Its entry; the name is the token as it stands on the line, the two
    quote characters included. *)
Definition sample_entry : BootConfig :=
  {| Name := dquote ++ "X" ++ dquote;
     Kernel := "/mnt/vmlinuz";
     KernelArgs := "root=/dev/sda1";
     Initramfs := "/mnt/initrd.img";
     Multiboot := ""; MultibootArgs := ""; Modules := [] |}.

(** An entry with two [module] lines. *)
Definition modules_config : string :=
  "menuentry xen" ++ nl ++
  "multiboot /xen.gz" ++ nl ++
  "module /a.ko arg1" ++ nl ++
  "module /b.ko".

Definition modules_entry : BootConfig :=
  {| Name := "xen"; Kernel := ""; KernelArgs := ""; Initramfs := "";
     Multiboot := "/mnt/xen.gz"; MultibootArgs := "";
     Modules := ["/mnt/a.ko arg1"; "/mnt/b.ko"] |}.

(** A file system with the single file [grub/grub.cfg] under [/mnt]. *)
Definition legacy_only (p : string) : string + error :=
  if String.eqb p "/mnt/grub/grub.cfg" then inl sample_config
  else inr "no such file or directory".

(** A file system without any file. *)
Definition no_file (p : string) : string + error :=
  inr "no such file or directory".

(** Two menu entries, the first without any directive. *)
Definition headers_config : string :=
  "menuentry first" ++ nl ++
  "menuentry second" ++ nl ++
  "linux /vmlinuz".

(** The string is the encoding of one white space rune. *)
Definition space_rune (w : string) : Prop :=
  w <> "" /\ strings.space_width w = String.length w.

(** A text made of white space runes only. *)
Inductive white_space : string -> Prop :=
| white_space_nil : white_space ""
| white_space_rune w s :
    space_rune w -> white_space s -> white_space (w ++ s).

(** *** Further vocabulary *)

(** The name a [menuentry] line gives to its entry. *)
Definition menuentry_name (line : string) : string :=
  strings.Join (tl (tokens line)) " ".

(** The measurements of a trace, content and path, in program order. *)
Fixpoint measurements (evs : list event) : list (string * string) :=
  match evs with
  | [] => []
  | TryMeasureData _ data p :: more => (data, p) :: measurements more
  | _ :: more => measurements more
  end.

(** The branch of the directive dispatch a line takes inside an entry. *)
Inductive kind := KNone | KLinux | KInitrd | KMultiboot | KModule.

Definition line_kind (line : string) : kind :=
  match tokens line with
  | s0 :: _ :: _ =>
      if is_linux s0 then KLinux
      else if is_initrd s0 then KInitrd
      else if String.eqb s0 "multiboot" then KMultiboot
      else if String.eqb s0 "module" then KModule
      else KNone
  | _ => KNone
  end.

(** Two entries that agree on every field a line of kind [k] does not
    assign. *)
Definition same_but (k : kind) (c c' : BootConfig) : Prop :=
  Name c = Name c' /\ Modules c = Modules c' /\
  (k <> KLinux -> Kernel c = Kernel c' /\ KernelArgs c = KernelArgs c') /\
  (k <> KInitrd -> Initramfs c = Initramfs c') /\
  (k <> KMultiboot ->
   Multiboot c = Multiboot c' /\ MultibootArgs c = MultibootArgs c').

(** The carriage return of a CRLF line ending. *)
Definition cr : string := String "013"%char EmptyString.

(** The saved entries with [bcs0] in front. *)
Definition prepend (bcs0 : list BootConfig) (st : state) : state :=
  {| bootconfigs := (bcs0 ++ bootconfigs st)%list;
     inMenuEntry := inMenuEntry st;
     cfg := cfg st |}.

(** A path that begins with a slash. *)
Definition absolute (p : string) : bool :=
  match p with
  | String c _ => Ascii.eqb c path.slash
  | EmptyString => false
  end.

(** The paths of an entry that are set are absolute. *)
Definition paths_absolute (c : BootConfig) : Prop :=
  (Kernel c = "" \/ absolute (Kernel c) = true) /\
  (Initramfs c = "" \/ absolute (Initramfs c) = true) /\
  (Multiboot c = "" \/ absolute (Multiboot c) = true) /\
  Forall (fun m => absolute m = true) (Modules c).

(* ------------------------------------------------------------------ *)
(** ** Lemmas on the library functions *)
(* ------------------------------------------------------------------ *)

Section StringFacts.

Lemma append_empty_r (s : string) : s ++ "" = s.
Proof. induction s as [|c s IH]; simpl; [reflexivity | now rewrite IH]. Qed.

Lemma append_assoc (a b c : string) : (a ++ b) ++ c = a ++ (b ++ c).
Proof. induction a as [|x a IH]; simpl; [reflexivity | now rewrite IH]. Qed.

Lemma Split_nonempty (s : string) (sep : ascii) : strings.Split s sep <> [].
Proof.
  destruct s as [|c r]; simpl; [discriminate|].
  destruct (Ascii.eqb c sep); [discriminate|].
  destruct (strings.Split r sep); discriminate.
Qed.

Lemma Split_no_sep (s : string) (sep : ascii) :
  has_byte sep s = false -> strings.Split s sep = [s].
Proof.
  induction s as [|c r IH]; simpl; intros H; [reflexivity|].
  apply orb_false_iff in H as [Hc Hr].
  rewrite Hc, (IH Hr). reflexivity.
Qed.

Lemma Split_app (a b : string) (sep : ascii) :
  strings.Split (a ++ String sep b) sep
  = (strings.Split a sep ++ strings.Split b sep)%list.
Proof.
  induction a as [|c a IH]; simpl.
  - now rewrite Ascii.eqb_refl.
  - destruct (Ascii.eqb c sep); rewrite IH; [reflexivity|].
    pose proof (Split_nonempty a sep) as Hne.
    destruct (strings.Split a sep); [contradiction | reflexivity].
Qed.

Lemma Split_app_no_sep (a b : string) (sep : ascii) :
  has_byte sep a = false ->
  strings.Split (a ++ String sep b) sep = a :: strings.Split b sep.
Proof. intros H. now rewrite Split_app, (Split_no_sep _ _ H). Qed.

(** Splitting the join of a non-empty list of lines gives the lines. *)
Lemma Split_Join (ls : list string) :
  ls <> [] -> Forall one_line ls ->
  strings.Split (strings.Join ls nl) newline = ls.
Proof.
  unfold strings.Join, nl.
  induction ls as [|l ls IH]; intros Hne Hall; [congruence|].
  inversion Hall as [|? ? Hl Hls]; subst.
  destruct ls as [|l' ls'].
  - simpl. now apply Split_no_sep.
  - change (String.concat (String newline "") (l :: l' :: ls'))
      with (l ++ String newline (String.concat (String newline "") (l' :: ls'))).
    rewrite Split_app_no_sep by exact Hl.
    f_equal. apply IH; [discriminate | exact Hls].
Qed.

(** Every text is the join of its lines. *)
Lemma Join_Split (s : string) (sep : ascii) :
  strings.Join (strings.Split s sep) (String sep "") = s.
Proof.
  unfold strings.Join.
  induction s as [|c r IH]; [reflexivity|].
  cbn [strings.Split].
  pose proof (Split_nonempty r sep) as Hne.
  destruct (Ascii.eqb c sep) eqn:E.
  - apply Ascii.eqb_eq in E. subst c.
    destruct (strings.Split r sep) as [|h t]; [contradiction|].
    cbn [String.concat]. cbn [String.concat] in IH. rewrite IH. reflexivity.
  - destruct (strings.Split r sep) as [|h t]; [contradiction|].
    destruct t as [|h' t']; cbn [String.concat] in *; now rewrite <- IH.
Qed.

Lemma one_line_Split (s : string) :
  Forall one_line (strings.Split s newline).
Proof.
  induction s as [|c r IH]; cbn [strings.Split].
  - repeat constructor.
  - destruct (Ascii.eqb c newline) eqn:E.
    + constructor; [reflexivity | exact IH].
    + destruct (strings.Split r newline) as [|h t].
      * constructor; [|constructor]. unfold one_line. simpl. now rewrite E.
      * inversion IH as [|? ? Hh Ht]; subst. constructor; [|exact Ht].
        unfold one_line in *. simpl. now rewrite E.
Qed.

End StringFacts.

Section SpaceFacts.

Ltac split_tests H :=
  repeat match type of H with
         | context [if ?b then _ else _] => destruct b eqn:?
         end.

Lemma space_rune_app (w s : string) :
  space_rune w -> strings.space_width (w ++ s) = String.length w.
Proof.
  intros [Hne H].
  destruct w as [|c [|d [|e [|f w']]]]; [congruence| | | |].
  - unfold strings.space_width in *. cbn [append].
    destruct (strings.asciiSpace c); [reflexivity | discriminate].
  - unfold strings.space_width in *. cbn [append].
    destruct (strings.asciiSpace c); [discriminate|].
    match type of H with
    | context [if ?b then _ else _] => destruct b; [reflexivity | discriminate]
    end.
  - exact H.
  - exfalso. unfold strings.space_width in H. cbn [String.length] in H.
    split_tests H; discriminate.
Qed.

Lemma space_rune_ascii (c : ascii) (r : string) :
  space_rune (String c r) -> strings.asciiSpace c = true -> r = "".
Proof.
  intros [_ H] Hc. unfold strings.space_width in H. rewrite Hc in H.
  destruct r; [reflexivity | discriminate].
Qed.

Lemma space_rune_first (c : ascii) (r : string) :
  space_rune (String c r) -> r <> "" -> strings.asciiSpace c = false.
Proof.
  intros Hw Hr. destruct (strings.asciiSpace c) eqn:E; [|reflexivity].
  now rewrite (space_rune_ascii _ _ Hw E) in Hr.
Qed.

Lemma space_rune_no_newline (c : ascii) (r : string) :
  space_rune (String c r) -> c <> newline ->
  has_byte newline (String c r) = false.
Proof.
  intros Hw Hc. cbn [has_byte].
  destruct (Ascii.eqb_spec c newline) as [|_]; [contradiction|].
  cbn [orb].
  destruct r as [|d r]; [reflexivity|].
  assert (Hsp : strings.asciiSpace c = false)
    by (apply (space_rune_first _ _ Hw); discriminate).
  destruct Hw as [_ H]. unfold strings.space_width in H. rewrite Hsp in H.
  cbn [has_byte].
  destruct (Ascii.eqb_spec d newline) as [->|_].
  { exfalso. cbn in H. rewrite ?andb_false_r in H.
    destruct r as [|e r]; [discriminate|].
    cbn in H. rewrite ?andb_false_r in H. discriminate. }
  cbn [orb].
  destruct r as [|e r]; [reflexivity|].
  cbn [has_byte].
  destruct (Ascii.eqb_spec e newline) as [->|_].
  { exfalso. cbn [String.length] in H.
    destruct (_ && (_ || _)) in H; [discriminate|].
    cbn in H. rewrite ?andb_false_r in H. discriminate. }
  cbn [orb].
  destruct r as [|f r]; [reflexivity|].
  exfalso. cbn [String.length] in H. split_tests H; discriminate.
Qed.

Lemma space_rune_length (w : string) :
  space_rune w -> String.length w <= 3.
Proof.
  intros [_ H].
  destruct w as [|c [|d [|e [|f w']]]]; cbn [String.length]; try lia.
  exfalso. unfold strings.space_width in H. cbn [String.length] in H.
  split_tests H; discriminate.
Qed.

(** The scan of [strings.Fields] passes a white space rune and closes
    the field before it. *)
Lemma fields_scan_rune (w s cur : string) :
  space_rune w ->
  strings.fields_scan (w ++ s) 0 cur
  = (strings.flush cur ++ strings.fields_scan s 0 "")%list.
Proof.
  intros Hw. pose proof (space_rune_app w s Hw) as E.
  pose proof (space_rune_length w Hw) as L. destruct Hw as [Hne _].
  destruct w as [|c [|d [|e [|f w']]]]; [congruence| | | |];
    cbn [String.length] in *; try lia;
    cbn [append] in *; cbn [strings.fields_scan]; rewrite E; reflexivity.
Qed.

Lemma Fields_white_space (s : string) :
  white_space s -> strings.Fields s = [].
Proof.
  unfold strings.Fields.
  induction 1 as [|w s Hw _ IH]; [reflexivity|].
  now rewrite (fields_scan_rune w s "" Hw).
Qed.

Lemma white_space_TrimLeft (s : string) :
  white_space s -> white_space (strings.TrimLeft s " ").
Proof.
  induction 1 as [|w s Hw Hs IH]; [constructor|].
  destruct w as [|c r]; [now destruct Hw|].
  cbn [append strings.TrimLeft strings.in_cutset].
  destruct (Ascii.eqb_spec c " ") as [->|_]; cbn [orb].
  - rewrite (space_rune_ascii _ _ Hw eq_refl). exact IH.
  - now apply (white_space_rune (String c r)).
Qed.

Lemma Split_prefix (w s : string) (sep : ascii) :
  has_byte sep w = false ->
  strings.Split (w ++ s) sep
  = match strings.Split s sep with
    | h :: t => (w ++ h) :: t
    | [] => [w]
    end.
Proof.
  induction w as [|c w IH]; cbn [append has_byte strings.Split]; intros H.
  - pose proof (Split_nonempty s sep) as Hne.
    destruct (strings.Split s sep); [contradiction | reflexivity].
  - apply orb_false_iff in H as [Hc Hw]. rewrite Hc, (IH Hw).
    pose proof (Split_nonempty s sep) as Hne.
    destruct (strings.Split s sep); [contradiction | reflexivity].
Qed.

Lemma white_space_Split (s : string) :
  white_space s -> Forall white_space (strings.Split s newline).
Proof.
  induction 1 as [|w s Hw Hs IH]; [repeat constructor|].
  destruct w as [|c r]; [now destruct Hw|].
  destruct (Ascii.eqb_spec c newline) as [->|Hc].
  - rewrite (space_rune_ascii _ _ Hw eq_refl).
    cbn [append strings.Split]. rewrite Ascii.eqb_refl.
    constructor; [constructor | exact IH].
  - rewrite (Split_prefix _ s _ (space_rune_no_newline _ _ Hw Hc)).
    destruct (strings.Split s newline) as [|h t].
    + constructor; [|constructor].
      rewrite <- (append_empty_r (String c r)).
      apply white_space_rune; [exact Hw | constructor].
    + inversion IH as [|? ? Hh Ht]; subst.
      constructor; [|exact Ht]. now apply white_space_rune.
Qed.

(** A text of ASCII white space is a text of white space runes. *)
Lemma white_space_ascii (s : string) :
  all_bytes strings.asciiSpace s = true -> white_space s.
Proof.
  induction s as [|c r IH]; cbn [all_bytes]; intros H; [constructor|].
  apply andb_true_iff in H as [Hc Hr].
  apply (white_space_rune (String c "") r); [|now apply IH].
  split; [discriminate|]. unfold strings.space_width. now rewrite Hc.
Qed.

(** A line of white space has no token. *)
Lemma tokens_white_space (s : string) :
  white_space s -> tokens s = [].
Proof.
  intros H. unfold tokens. now apply Fields_white_space, white_space_TrimLeft.
Qed.

Lemma tokens_all_space (s : string) :
  all_bytes strings.asciiSpace s = true -> tokens s = [].
Proof. intros H. now apply tokens_white_space, white_space_ascii. Qed.

End SpaceFacts.

(* ------------------------------------------------------------------ *)
(** ** Lemmas on the loop of ParseGrubCfg *)
(* ------------------------------------------------------------------ *)

Section LoopFacts.

Variable IsValid : BootConfig -> bool.
Variable ver : grubVersion.
Variable basedir : string.

Local Abbreviation parse_line' := (parse_line IsValid ver basedir).
Local Abbreviation parse_lines' := (parse_lines IsValid ver basedir).

Lemma valid_version_test :
  valid_version ver ->
  negb (Z.eqb ver grubV1) && negb (Z.eqb ver grubV2) = false.
Proof. intros [-> | ->]; reflexivity. Qed.

Lemma ParseGrubCfg_run (grubcfg : string) :
  valid_version ver ->
  ParseGrubCfg IsValid ver grubcfg basedir
  = run IsValid ver basedir (strings.Split grubcfg newline).
Proof.
  intros Hv. unfold ParseGrubCfg, run.
  now rewrite (valid_version_test Hv).
Qed.

Lemma parse_line_blank (st : state) (line : string) :
  tokens line = [] -> parse_line' st line = Some st.
Proof. intros H. unfold parse_line. now rewrite H. Qed.

Lemma parse_line_unrecognized (st : state) (line : string) :
  unrecognized_line line = true -> parse_line' st line = Some st.
Proof.
  unfold unrecognized_line, recognized, parse_line.
  destruct (tokens line) as [|s0 rest]; [reflexivity|].
  intros H. apply negb_true_iff in H.
  repeat (apply orb_false_iff in H; destruct H as [H ?]).
  rewrite H. destruct (inMenuEntry st); [|reflexivity].
  destruct rest as [|s1 args]; [reflexivity|].
  repeat match goal with E : _ = false |- _ => rewrite E; clear E end.
  reflexivity.
Qed.

Lemma parse_line_short (st : state) (line s0 : string) :
  tokens line = [s0] -> String.eqb s0 "menuentry" = false ->
  parse_line' st line = Some st.
Proof.
  intros H E. unfold parse_line. rewrite H, E.
  now destruct (inMenuEntry st).
Qed.

Lemma parse_line_outside (bcs : list BootConfig) (line : string) :
  menuentry_line line = false ->
  parse_line' {| bootconfigs := bcs; inMenuEntry := false; cfg := None |} line
  = Some {| bootconfigs := bcs; inMenuEntry := false; cfg := None |}.
Proof.
  unfold menuentry_line, parse_line.
  destruct (tokens line) as [|s0 rest]; [reflexivity|].
  intros ->. reflexivity.
Qed.

Lemma parse_line_inside (bcs : list BootConfig) (c : BootConfig)
    (line : string) :
  menuentry_line line = false ->
  parse_line' {| bootconfigs := bcs; inMenuEntry := true; cfg := Some c |} line
  = Some {| bootconfigs := bcs; inMenuEntry := true;
            cfg := Some (directive ver basedir c line) |}.
Proof.
  unfold menuentry_line, directive, parse_line.
  destruct (tokens line) as [|s0 rest]; [reflexivity|].
  intros ->. simpl.
  destruct rest as [|s1 args]; [reflexivity|].
  destruct (is_linux s0); [reflexivity|].
  destruct (is_initrd s0); [reflexivity|].
  destruct (String.eqb s0 "multiboot"); [reflexivity|].
  destruct (String.eqb s0 "module"); reflexivity.
Qed.

Lemma parse_line_menuentry (st : state) (line : string) :
  menuentry_line line = true ->
  parse_line' st line
  = Some {| bootconfigs := flushed IsValid st; inMenuEntry := true;
            cfg := Some (set_Name new_BootConfig
                           (strings.Join (tl (tokens line)) " ")) |}.
Proof.
  unfold menuentry_line, parse_line, flushed.
  destruct (tokens line) as [|s0 rest]; [discriminate|].
  intros ->. reflexivity.
Qed.

Lemma parse_line_good (st : state) (line : string) :
  good st -> exists st', parse_line' st line = Some st' /\ good st'.
Proof.
  intros Hg. destruct (menuentry_line line) eqn:E.
  - rewrite (parse_line_menuentry st _ E). eexists; split; [reflexivity|].
    constructor.
  - destruct Hg.
    + rewrite (parse_line_outside _ _ E). eexists; split; [reflexivity|].
      constructor.
    + rewrite (parse_line_inside _ _ _ E). eexists; split; [reflexivity|].
      constructor.
Qed.

Lemma parse_lines_good (lines : list string) (st : state) :
  good st -> exists st', parse_lines' lines st = Some st' /\ good st'.
Proof.
  revert st. induction lines as [|l ls IH]; intros st Hg; simpl.
  - now exists st.
  - destruct (parse_line_good _ l Hg) as (st1 & -> & Hg1). now apply IH.
Qed.

Lemma finish_good (st : state) :
  good st -> finish IsValid st = Some (flushed IsValid st).
Proof. now intros []. Qed.

(** The parser returns on every list of lines, without a diagnostic. *)
Lemma run_returns (lines : list string) :
  exists bcs, run IsValid ver basedir lines = ([], Some bcs).
Proof.
  unfold run, initial.
  destruct (parse_lines_good lines _ (good_outside [])) as (st & -> & Hg).
  rewrite (finish_good _ Hg). now eexists.
Qed.

Lemma parse_lines_app (l1 l2 : list string) (st : state) :
  parse_lines' (l1 ++ l2) st
  = match parse_lines' l1 st with
    | Some st' => parse_lines' l2 st'
    | None => None
    end.
Proof.
  revert st. induction l1 as [|l l1 IH]; intros st; simpl; [reflexivity|].
  destruct (parse_line' st l); [apply IH | reflexivity].
Qed.

(** A line that leaves every state as it is can be inserted or removed
    anywhere. *)
Lemma parse_lines_skip (l1 l2 : list string) (line : string) (st : state) :
  (forall st', parse_line' st' line = Some st') ->
  parse_lines' (l1 ++ line :: l2) st = parse_lines' (l1 ++ l2) st.
Proof.
  intros H. rewrite !parse_lines_app. simpl.
  destruct (parse_lines' l1 st); [now rewrite H | reflexivity].
Qed.

Lemma parse_lines_outside (lines : list string) (bcs : list BootConfig) :
  Forall (fun l => menuentry_line l = false) lines ->
  parse_lines' lines {| bootconfigs := bcs; inMenuEntry := false; cfg := None |}
  = Some {| bootconfigs := bcs; inMenuEntry := false; cfg := None |}.
Proof.
  induction 1 as [|l ls Hl _ IH]; simpl; [reflexivity|].
  now rewrite (parse_line_outside _ _ Hl).
Qed.

Lemma parse_lines_inside (lines : list string) (bcs : list BootConfig)
    (c : BootConfig) :
  Forall (fun l => menuentry_line l = false) lines ->
  parse_lines' lines {| bootconfigs := bcs; inMenuEntry := true; cfg := Some c |}
  = Some {| bootconfigs := bcs; inMenuEntry := true;
            cfg := Some (fold_left (directive ver basedir) lines c) |}.
Proof.
  intros H. revert c. induction H as [|l ls Hl _ IH]; intros c; simpl.
  - reflexivity.
  - rewrite (parse_line_inside _ _ _ Hl). apply IH.
Qed.

Lemma well_formed_body (b : block) :
  well_formed b -> Forall (fun l => menuentry_line l = false) (body b).
Proof.
  intros (_ & _ & H). eapply Forall_impl; [|exact H]. now intros l [? _].
Qed.

Lemma well_formed_one_line (b : block) :
  well_formed b -> Forall one_line (block_lines b).
Proof.
  intros (_ & Hh & H). constructor; [exact Hh|].
  eapply Forall_impl; [|exact H]. now intros l [_ ?].
Qed.

Lemma parse_lines_block (b : block) (st : state) :
  well_formed b ->
  parse_lines' (block_lines b) st
  = Some {| bootconfigs := flushed IsValid st; inMenuEntry := true;
            cfg := Some (entry_of ver basedir b) |}.
Proof.
  intros Hwf. unfold block_lines. simpl.
  destruct Hwf as (Hh & Hrest).
  rewrite (parse_line_menuentry st _ Hh).
  apply parse_lines_inside.
  apply (well_formed_body _ (conj Hh Hrest)).
Qed.

Lemma save_filter (bcs : list BootConfig) (c : BootConfig) :
  save IsValid bcs c = (bcs ++ filter IsValid [c])%list.
Proof.
  unfold save. simpl. destruct (IsValid c); [reflexivity|].
  now rewrite app_nil_r.
Qed.

Lemma parse_lines_blocks (bs : list block) (st : state) :
  Forall well_formed bs ->
  good st ->
  exists st',
    parse_lines' (concat (map block_lines bs)) st = Some st' /\ good st' /\
    flushed IsValid st'
    = (flushed IsValid st ++ filter IsValid (map (entry_of ver basedir) bs))%list.
Proof.
  intros H. revert st. induction H as [|b bs Hb _ IH]; intros st Hg.
  - exists st. simpl. now rewrite app_nil_r.
  - rewrite !map_cons, concat_cons, parse_lines_app,
      (parse_lines_block _ _ Hb).
    edestruct IH as (st' & -> & Hg' & E); [constructor|].
    exists st'. split; [reflexivity|]. split; [exact Hg'|].
    rewrite E.
    change (flushed IsValid {| bootconfigs := flushed IsValid st;
                               inMenuEntry := true;
                               cfg := Some (entry_of ver basedir b) |})
      with (save IsValid (flushed IsValid st) (entry_of ver basedir b)).
    rewrite save_filter, <- app_assoc. f_equal.
    simpl. now destruct (IsValid (entry_of ver basedir b)).
Qed.

Lemma Forall_filter_true (l : list BootConfig) :
  Forall (fun c => IsValid c = true) (filter IsValid l).
Proof.
  apply Forall_forall. intros c Hc. now apply filter_In in Hc.
Qed.

Lemma filter_all_true (l : list BootConfig) :
  Forall (fun c => IsValid c = true) l -> filter IsValid l = l.
Proof.
  induction 1 as [|c l Hc _ IH]; simpl; [reflexivity|].
  now rewrite Hc, IH.
Qed.

(** Running the loop with the predicate is running it without and
    keeping the valid entries. *)
Lemma parse_line_filter (st : state) (line : string) :
  parse_line' (filter_state IsValid st) line
  = option_map (filter_state IsValid)
      (parse_line (fun _ => true) ver basedir st line).
Proof.
  destruct st as [bcs inside pending].
  unfold parse_line, filter_state, through_cfg. simpl.
  destruct (tokens line) as [|s0 rest]; [reflexivity|].
  destruct (String.eqb s0 "menuentry").
  - simpl. f_equal. unfold filter_state. simpl. f_equal.
    destruct pending as [c|]; [|reflexivity].
    rewrite save_filter. unfold save. now rewrite filter_app.
  - destruct inside; [|reflexivity].
    destruct rest as [|s1 args]; [reflexivity|].
    destruct (is_linux s0); [now destruct pending|].
    destruct (is_initrd s0); [now destruct pending|].
    destruct (String.eqb s0 "multiboot"); [now destruct pending|].
    destruct (String.eqb s0 "module"); [now destruct pending|].
    reflexivity.
Qed.

Lemma parse_lines_filter (lines : list string) (st : state) :
  parse_lines' lines (filter_state IsValid st)
  = option_map (filter_state IsValid)
      (parse_lines (fun _ => true) ver basedir lines st).
Proof.
  revert st. induction lines as [|l ls IH]; intros st; simpl; [reflexivity|].
  rewrite parse_line_filter.
  destruct (parse_line (fun _ => true) ver basedir st l); simpl;
    [apply IH | reflexivity].
Qed.

Lemma finish_filter (st : state) :
  finish IsValid (filter_state IsValid st)
  = option_map (filter IsValid) (finish (fun _ => true) st).
Proof.
  destruct st as [bcs inside pending].
  unfold finish, filter_state. simpl.
  destruct inside; [|reflexivity].
  destruct pending as [c|]; [|reflexivity].
  simpl. rewrite save_filter. unfold save. now rewrite filter_app.
Qed.

Lemma run_filter (lines : list string) :
  forall pending,
    run (fun _ => true) ver basedir lines = ([], Some pending) ->
    run IsValid ver basedir lines = ([], Some (filter IsValid pending)).
Proof.
  intros pending. unfold run.
  change initial with (filter_state IsValid initial) at 2.
  rewrite parse_lines_filter.
  destruct (parse_lines (fun _ => true) ver basedir lines initial) as [st|];
    simpl; [|discriminate].
  rewrite finish_filter.
  destruct (finish (fun _ => true) st); simpl; [|discriminate].
  unfold ret. now intros [= ->].
Qed.

End LoopFacts.

(* ------------------------------------------------------------------ *)
(** ** The text of a configuration and its lines *)
(* ------------------------------------------------------------------ *)

Section TextFacts.

Variable IsValid : BootConfig -> bool.
Variable ver : grubVersion.
Variable basedir : string.
Hypothesis Hver : valid_version ver.

Lemma tokens_empty : tokens "" = [].
Proof. reflexivity. Qed.

Lemma run_no_line : run IsValid ver basedir [""] = run IsValid ver basedir [].
Proof. reflexivity. Qed.

(** Parsing the join of lines is running the loop on them. *)
Lemma ParseGrubCfg_Join (lines : list string) :
  Forall one_line lines ->
  ParseGrubCfg IsValid ver (strings.Join lines nl) basedir
  = run IsValid ver basedir lines.
Proof.
  intros H. rewrite (ParseGrubCfg_run _ _ _ _ Hver).
  destruct lines as [|l ls].
  - apply run_no_line.
  - rewrite Split_Join; [reflexivity | discriminate | exact H].
Qed.

Lemma ParseGrubCfg_returns (grubcfg : string) :
  exists bcs, ParseGrubCfg IsValid ver grubcfg basedir = ([], Some bcs).
Proof. rewrite (ParseGrubCfg_run _ _ _ _ Hver). apply run_returns. Qed.

Lemma run_skip (l1 l2 : list string) (line : string) :
  (forall st, parse_line IsValid ver basedir st line = Some st) ->
  run IsValid ver basedir (l1 ++ line :: l2)
  = run IsValid ver basedir (l1 ++ l2).
Proof. intros H. unfold run. now rewrite parse_lines_skip. Qed.

Lemma run_outside (l1 l2 : list string) :
  Forall (fun l => menuentry_line l = false) l1 ->
  run IsValid ver basedir (l1 ++ l2) = run IsValid ver basedir l2.
Proof.
  intros H. unfold run, initial.
  now rewrite parse_lines_app, (parse_lines_outside _ _ _ _ _ H).
Qed.

Lemma run_blocks (pre : list string) (bs : list block) :
  Forall (fun l => menuentry_line l = false) pre ->
  Forall well_formed bs ->
  run IsValid ver basedir (pre ++ concat (map block_lines bs))
  = ([], Some (filter IsValid (map (entry_of ver basedir) bs))).
Proof.
  intros Hpre Hbs. rewrite (run_outside _ _ Hpre). unfold run.
  destruct (parse_lines_blocks IsValid ver basedir _ initial Hbs
              (good_outside [])) as (st & -> & Hg & E).
  rewrite (finish_good _ _ Hg), E. reflexivity.
Qed.

Lemma one_line_blocks (bs : list block) :
  Forall well_formed bs -> Forall one_line (concat (map block_lines bs)).
Proof.
  induction 1 as [|b bs Hb _ IH]; [constructor|].
  rewrite map_cons, concat_cons. apply Forall_app. split; [|exact IH].
  apply (well_formed_one_line _ Hb).
Qed.

End TextFacts.

(* ------------------------------------------------------------------ *)
(** ** The parser on the sample configuration *)
(* ------------------------------------------------------------------ *)



(* ------------------------------------------------------------------ *)
(** ** Only valid entries are returned *)
(* ------------------------------------------------------------------ *)

(** C2.  With a valid version the parser returns, without a diagnostic,
    the entries it would return if every pending entry were kept,
    restricted to those the validity predicate accepts; every returned
    entry is valid, and a pending entry the predicate rejects is not
    returned.  The pending entry is tested at a [menuentry] line, before
    the new entry replaces it, and after the last line: it joins the
    saved entries when the predicate accepts it and is dropped
    otherwise. *)
Theorem only_valid_entries :
  forall (IsValid : BootConfig -> bool) (ver : grubVersion)
         (grubcfg basedir : string),
    valid_version ver ->
    (exists pending,
      ParseGrubCfg (fun _ => true) ver grubcfg basedir = ([], Some pending) /\
      ParseGrubCfg IsValid ver grubcfg basedir
      = ([], Some (filter IsValid pending)) /\
      Forall (fun c => IsValid c = true) (filter IsValid pending) /\
      (forall c, In c pending -> IsValid c = false ->
                 ~ In c (filter IsValid pending))) /\
    (forall bcs c line,
        menuentry_line line = true ->
        parse_line IsValid ver basedir
          {| bootconfigs := bcs; inMenuEntry := true; cfg := Some c |} line
        = Some {| bootconfigs := if IsValid c then (bcs ++ [c])%list else bcs;
                  inMenuEntry := true;
                  cfg := Some (set_Name new_BootConfig
                                 (strings.Join (tl (tokens line)) " ")) |}) /\
    (forall bcs c,
        finish IsValid
          {| bootconfigs := bcs; inMenuEntry := true; cfg := Some c |}
        = Some (if IsValid c then (bcs ++ [c])%list else bcs)).
Proof.
  intros IsValid ver grubcfg basedir Hver.
  split; [|split].
  - destruct (ParseGrubCfg_returns (fun _ => true) ver basedir Hver grubcfg)
      as (pending & E).
    exists pending. split; [exact E|].
    rewrite (ParseGrubCfg_run (fun _ => true) _ _ _ Hver) in E.
    rewrite (ParseGrubCfg_run IsValid _ _ _ Hver).
    split; [now apply run_filter|].
    split; [apply Forall_filter_true|].
    intros c _ Hc Hin. apply filter_In in Hin. destruct Hin as [_ Hin].
    congruence.
  - intros bcs c line Hm. now rewrite (parse_line_menuentry _ _ _ _ _ Hm).
  - reflexivity.
Qed.

Lemma only_valid_entries_witness :
  exists pending,
    ParseGrubCfg (fun _ => true) grubV2 headers_config "/mnt"
    = ([], Some pending) /\
    ParseGrubCfg IsValid_spec grubV2 headers_config "/mnt"
    = ([], Some (filter IsValid_spec pending)) /\
    Forall (fun c => IsValid_spec c = true) (filter IsValid_spec pending) /\
    (forall c, In c pending -> IsValid_spec c = false ->
               ~ In c (filter IsValid_spec pending)).
Proof.
  apply (only_valid_entries IsValid_spec grubV2 headers_config "/mnt").
  right; reflexivity.
Defined.

(** A header without directive is a pending entry that carries a name
    only; the validity rule of the specification rejects it, and the
    parser returns the second entry alone. *)
Example headers_config_entries :
  ParseGrubCfg (fun _ => true) grubV2 headers_config "/mnt"
  = ([], Some [ set_Name new_BootConfig "first";
                set_Kernel (set_Name new_BootConfig "second") "/mnt/vmlinuz" ])
  /\ ParseGrubCfg IsValid_spec grubV2 headers_config "/mnt"
     = ([], Some [ set_Kernel (set_Name new_BootConfig "second")
                              "/mnt/vmlinuz" ]).
Proof. split; vm_compute; reflexivity. Qed.

(* ------------------------------------------------------------------ *)
(** ** Invalid versions *)
(* ------------------------------------------------------------------ *)

(** C5.  With a version that is neither [grubV1] nor [grubV2] the
    parser emits the diagnostic on the invalid version and returns the
    empty sequence, whatever the text and the base directory; it does
    not panic. *)
Theorem invalid_version_empty :
  forall (IsValid : BootConfig -> bool) (ver : grubVersion)
         (grubcfg basedir : string),
    ver <> grubV1 -> ver <> grubV2 ->
    ParseGrubCfg IsValid ver grubcfg basedir
    = ([LogInvalidVersion ver], Some []).
Proof.
  intros IsValid ver grubcfg basedir H1 H2. unfold ParseGrubCfg.
  apply Z.eqb_neq in H1. apply Z.eqb_neq in H2.
  rewrite H1, H2. reflexivity.
Qed.

Lemma invalid_version_empty_witness :
  ParseGrubCfg IsValid_spec 3%Z sample_config "/mnt"
  = ([LogInvalidVersion 3%Z], Some []).
Proof.
  apply (invalid_version_empty IsValid_spec 3%Z sample_config "/mnt");
    discriminate.
Defined.

(* ------------------------------------------------------------------ *)
(** ** Texts without menu entry *)
(* ------------------------------------------------------------------ *)

Lemma run_without_menuentry (IsValid : BootConfig -> bool)
    (ver : grubVersion) (basedir : string) (lines : list string) :
  Forall (fun l => menuentry_line l = false) lines ->
  run IsValid ver basedir lines = ([], Some []).
Proof.
  intros H. unfold run, initial.
  now rewrite (parse_lines_outside _ _ _ _ _ H).
Qed.

Lemma blank_not_menuentry (line : string) :
  tokens line = [] -> menuentry_line line = false.
Proof. intros H. unfold menuentry_line. now rewrite H. Qed.

(** C10.  With a valid version, the empty text and every text made of
    white space only give the empty sequence, without diagnostic: so for
    the bytes tab, line feed, vertical tab, form feed, carriage return
    and space, and for all the white space runes [strings.Fields] knows.
    More generally so does every text none of whose lines starts with
    the token [menuentry]. *)
Theorem no_menuentry_no_entry :
  forall (IsValid : BootConfig -> bool) (ver : grubVersion)
         (basedir : string),
    valid_version ver ->
    ParseGrubCfg IsValid ver "" basedir = ([], Some []) /\
    (forall grubcfg,
        all_bytes strings.asciiSpace grubcfg = true ->
        ParseGrubCfg IsValid ver grubcfg basedir = ([], Some [])) /\
    (forall grubcfg,
        white_space grubcfg ->
        ParseGrubCfg IsValid ver grubcfg basedir = ([], Some [])) /\
    (forall grubcfg,
        Forall (fun l => menuentry_line l = false)
               (strings.Split grubcfg newline) ->
        ParseGrubCfg IsValid ver grubcfg basedir = ([], Some [])).
Proof.
  intros IsValid ver basedir Hver.
  assert (Hgen : forall grubcfg,
             Forall (fun l => menuentry_line l = false)
                    (strings.Split grubcfg newline) ->
             ParseGrubCfg IsValid ver grubcfg basedir = ([], Some [])).
  { intros grubcfg H. rewrite (ParseGrubCfg_run _ _ _ _ Hver).
    now apply run_without_menuentry. }
  assert (Hspace : forall grubcfg,
             white_space grubcfg ->
             ParseGrubCfg IsValid ver grubcfg basedir = ([], Some [])).
  { intros grubcfg H. apply Hgen.
    eapply Forall_impl; [|apply (white_space_Split _ H)].
    intros l Hl. apply blank_not_menuentry, tokens_white_space, Hl. }
  split; [apply Hspace; constructor|].
  split; [intros grubcfg H; now apply Hspace, white_space_ascii|].
  split; assumption.
Qed.

Lemma no_menuentry_no_entry_witness :
  ParseGrubCfg IsValid_spec grubV1 "" "/mnt" = ([], Some []) /\
  ParseGrubCfg IsValid_spec grubV1 ("  " ++ nl ++ nl ++ " ") "/mnt"
  = ([], Some []) /\
  ParseGrubCfg IsValid_spec grubV1 ("linux /vmlinuz" ++ nl ++ "}") "/mnt"
  = ([], Some []).
Proof.
  destruct (no_menuentry_no_entry IsValid_spec grubV1 "/mnt")
    as (H0 & H1 & _ & H2); [left; reflexivity|].
  split; [exact H0|]. split.
  - apply H1. reflexivity.
  - apply H2. repeat constructor.
Defined.

(* ------------------------------------------------------------------ *)
(** ** What a line does to the entry under construction *)
(* ------------------------------------------------------------------ *)

Section DirectiveFacts.

Variable ver : grubVersion.
Variable basedir : string.

Lemma is_linux_not_menuentry (s0 : string) :
  is_linux s0 = true -> String.eqb s0 "menuentry" = false.
Proof.
  unfold is_linux. intros H.
  repeat (apply orb_true_iff in H; destruct H as [H | H]);
    apply String.eqb_eq in H; subst; reflexivity.
Qed.

Lemma is_initrd_not_menuentry (s0 : string) :
  is_initrd s0 = true ->
  String.eqb s0 "menuentry" = false /\ is_linux s0 = false.
Proof.
  unfold is_initrd. intros H.
  repeat (apply orb_true_iff in H; destruct H as [H | H]);
    apply String.eqb_eq in H; subst; split; reflexivity.
Qed.

Lemma directive_linux (c : BootConfig) (line s0 s1 : string)
    (args : list string) :
  tokens line = s0 :: s1 :: args -> is_linux s0 = true ->
  directive ver basedir c line
  = set_KernelArgs (set_Kernel c (path.Join basedir s1))
                   (unquote ver (strings.Join args " ")).
Proof.
  intros Ht Hk. unfold directive, parse_line.
  now rewrite Ht, (is_linux_not_menuentry _ Hk), Hk.
Qed.

Lemma directive_initrd (c : BootConfig) (line s0 s1 : string)
    (args : list string) :
  tokens line = s0 :: s1 :: args -> is_initrd s0 = true ->
  directive ver basedir c line = set_Initramfs c (path.Join basedir s1).
Proof.
  intros Ht Hk. unfold directive, parse_line.
  destruct (is_initrd_not_menuentry _ Hk) as [E1 E2].
  now rewrite Ht, E1, E2, Hk.
Qed.

Lemma directive_multiboot (c : BootConfig) (line s1 : string)
    (args : list string) :
  tokens line = "multiboot" :: s1 :: args ->
  directive ver basedir c line
  = set_MultibootArgs (set_Multiboot c (path.Join basedir s1))
                      (unquote ver (strings.Join args " ")).
Proof. intros Ht. unfold directive, parse_line. now rewrite Ht. Qed.

Lemma directive_module (c : BootConfig) (line s1 : string)
    (args : list string) :
  tokens line = "module" :: s1 :: args ->
  directive ver basedir c line
  = set_Modules c (Modules c ++ module_of ver basedir line)%list.
Proof.
  intros Ht. unfold directive, parse_line, module_of. rewrite Ht. simpl.
  unfold unquote.
  now destruct (String.eqb _ "").
Qed.

(** The fields a line leaves alone. *)
Lemma directive_frame (c : BootConfig) (line : string) :
  menuentry_line line = false ->
  Name (directive ver basedir c line) = Name c /\
  (sets_kernel line = false ->
   Kernel (directive ver basedir c line) = Kernel c /\
   KernelArgs (directive ver basedir c line) = KernelArgs c) /\
  (sets_initramfs line = false ->
   Initramfs (directive ver basedir c line) = Initramfs c) /\
  (sets_multiboot line = false ->
   Multiboot (directive ver basedir c line) = Multiboot c /\
   MultibootArgs (directive ver basedir c line) = MultibootArgs c) /\
  Modules (directive ver basedir c line)
  = (Modules c ++ module_of ver basedir line)%list.
Proof.
  unfold menuentry_line, sets_kernel, sets_initramfs, sets_multiboot,
    module_of, directive, parse_line.
  destruct (tokens line) as [|s0 [|s1 args]].
  - intros _. simpl. rewrite app_nil_r. repeat split.
  - intros ->. simpl. rewrite app_nil_r. repeat split.
  - intros ->. simpl.
    destruct (is_linux s0) eqn:E1.
    { assert (String.eqb s0 "module" = false) as ->.
      { unfold is_linux in E1.
        repeat (apply orb_true_iff in E1; destruct E1 as [E1 | E1]);
          apply String.eqb_eq in E1; subst; reflexivity. }
      simpl. rewrite app_nil_r.
      repeat split; intros; try discriminate; reflexivity. }
    destruct (is_initrd s0) eqn:E2.
    { assert (String.eqb s0 "module" = false) as ->.
      { unfold is_initrd in E2.
        repeat (apply orb_true_iff in E2; destruct E2 as [E2 | E2]);
          apply String.eqb_eq in E2; subst; reflexivity. }
      simpl. rewrite app_nil_r.
      repeat split; intros; try discriminate; reflexivity. }
    destruct (String.eqb s0 "multiboot") eqn:E3.
    { apply String.eqb_eq in E3. subst s0. simpl. rewrite app_nil_r.
      repeat split; intros; try discriminate; reflexivity. }
    destruct (String.eqb s0 "module") eqn:E4.
    { simpl. unfold unquote.
      destruct (String.eqb _ ""); repeat split. }
    simpl. rewrite app_nil_r. repeat split.
Qed.

Lemma fold_directive_frame (lines : list string) (c : BootConfig) :
  Forall (fun l => menuentry_line l = false) lines ->
  Name (fold_left (directive ver basedir) lines c) = Name c /\
  (Forall (fun l => sets_kernel l = false) lines ->
   Kernel (fold_left (directive ver basedir) lines c) = Kernel c /\
   KernelArgs (fold_left (directive ver basedir) lines c) = KernelArgs c) /\
  (Forall (fun l => sets_initramfs l = false) lines ->
   Initramfs (fold_left (directive ver basedir) lines c) = Initramfs c) /\
  (Forall (fun l => sets_multiboot l = false) lines ->
   Multiboot (fold_left (directive ver basedir) lines c) = Multiboot c /\
   MultibootArgs (fold_left (directive ver basedir) lines c)
   = MultibootArgs c) /\
  Modules (fold_left (directive ver basedir) lines c)
  = (Modules c ++ flat_map (module_of ver basedir) lines)%list.
Proof.
  intros H. revert c. induction H as [|l ls Hl _ IH]; intros c; simpl.
  - rewrite app_nil_r. repeat split.
  - destruct (IH (directive ver basedir c l)) as (IN & IK & II & IM & IMod).
    destruct (directive_frame c l Hl) as (DN & DK & DI & DM & DMod).
    split; [congruence|].
    split.
    { intros HF. inversion HF as [|? ? Hk Hks]; subst.
      destruct (IK Hks) as [-> ->]. now apply DK. }
    split.
    { intros HF. inversion HF as [|? ? Hk Hks]; subst.
      rewrite (II Hks). now apply DI. }
    split.
    { intros HF. inversion HF as [|? ? Hk Hks]; subst.
      destruct (IM Hks) as [-> ->]. now apply DM. }
    rewrite IMod, DMod. now rewrite <- app_assoc.
Qed.

End DirectiveFacts.

(* ------------------------------------------------------------------ *)
(** ** Unescaping *)
(* ------------------------------------------------------------------ *)

Section UnquoteFacts.

Local Abbreviation esc := "\$" (only parsing).

Lemma prefix_empty (r : string) : String.prefix "" r = true.
Proof. now destruct r. Qed.

Lemma prefix_esc (c : ascii) (r : string) :
  String.prefix esc (String c r) = true ->
  c = "\"%char /\ exists r', r = String "$" r'.
Proof.
  cbn [String.prefix]. destruct (ascii_dec "\" c) as [<-|]; [|discriminate].
  destruct r as [|d r']; cbn [String.prefix]; [discriminate|].
  destruct (ascii_dec "$" d) as [<-|]; [|discriminate].
  intros _. split; [reflexivity | now exists r'].
Qed.

Lemma prefix_esc_match (r : string) :
  String.prefix esc (String "\" (String "$" r)) = true.
Proof.
  cbn [String.prefix].
  destruct (ascii_dec "\" "\"); [|congruence].
  destruct (ascii_dec "$" "$"); [|congruence].
  apply prefix_empty.
Qed.

Lemma replace_scan_match (r : string) :
  strings.replace_scan (String "\" (String "$" r)) esc "$" 0
  = String "$" (strings.replace_scan (String "$" r) esc "$" 1).
Proof.
  change (strings.replace_scan (String "\" (String "$" r)) esc "$" 0)
    with (if String.prefix esc (String "\" (String "$" r))
          then "$" ++ strings.replace_scan (String "$" r) esc "$" 1
          else String "\" (strings.replace_scan (String "$" r) esc "$" 0)).
  now rewrite prefix_esc_match.
Qed.

Lemma replace_scan_skip (c : ascii) (r : string) :
  strings.replace_scan (String c r) esc "$" 1
  = strings.replace_scan r esc "$" 0.
Proof. reflexivity. Qed.

Lemma replace_scan_other (c : ascii) (r : string) :
  String.prefix esc (String c r) = false ->
  strings.replace_scan (String c r) esc "$" 0
  = String c (strings.replace_scan r esc "$" 0).
Proof. intros H. cbn [strings.replace_scan]. now rewrite H. Qed.

(** The scan on a text that goes on with an escape sequence. *)
Lemma replace_scan_app (a b : string) (k : nat) :
  k = 0 \/ (k = 1 /\ exists a', a = String "$" a') ->
  strings.replace_scan (a ++ esc ++ b) esc "$" k
  = strings.replace_scan a esc "$" k
    ++ "$" ++ strings.replace_scan b esc "$" 0.
Proof.
  revert k. induction a as [|c a IH]; intros k Hk.
  - destruct Hk as [-> | (_ & a' & Ha)]; [|discriminate].
    change ("" ++ esc ++ b) with (String "\" (String "$" b)).
    now rewrite (replace_scan_match b), replace_scan_skip.
  - destruct Hk as [-> | (-> & a' & Ha)].
    + change (String c a ++ esc ++ b) with (String c (a ++ esc ++ b)).
      destruct (String.prefix esc (String c a)) eqn:E.
      * destruct (prefix_esc _ _ E) as (-> & a' & ->).
        change (String "$" a' ++ esc ++ b)
          with (String "$" (a' ++ esc ++ b)).
        rewrite !replace_scan_match.
        change (String "$" (a' ++ esc ++ b))
          with (String "$" a' ++ esc ++ b).
        rewrite IH by (right; split; [reflexivity | now exists a']).
        reflexivity.
      * assert (E' : String.prefix esc (String c (a ++ esc ++ b)) = false).
        { revert E. cbn [String.prefix].
          destruct (ascii_dec "\" c); [|reflexivity].
          destruct a as [|d a']; cbn [String.prefix append].
          - intros _. now destruct (ascii_dec "$" "\").
          - destruct (ascii_dec "$" d); [|reflexivity].
            rewrite !prefix_empty. discriminate. }
        rewrite (replace_scan_other _ _ E'), (replace_scan_other _ _ E).
        rewrite IH by (left; reflexivity). reflexivity.
    + injection Ha as -> ->.
      change (String "$" a' ++ esc ++ b) with (String "$" (a' ++ esc ++ b)).
      rewrite !replace_scan_skip.
      apply IH. left; reflexivity.
Qed.

Lemma replace_scan_absent (s : string) :
  contains esc s = false -> strings.replace_scan s esc "$" 0 = s.
Proof.
  induction s as [|c r IH]; [reflexivity|].
  intros H. cbn [contains] in H. apply orb_false_iff in H as [Hp Hr].
  rewrite (replace_scan_other _ _ Hp), (IH Hr). reflexivity.
Qed.

Lemma unquote_other_version (ver : grubVersion) (text : string) :
  ver <> grubV2 -> unquote ver text = text.
Proof.
  intros H. unfold unquote. apply Z.eqb_neq in H. now rewrite H.
Qed.


End UnquoteFacts.

(** C3.  Under the legacy version [unquote] returns its argument.
    Under version 2 it replaces every occurrence of backslash-dollar,
    found from left to right, by a dollar sign and copies every other
    byte: an occurrence splits the text into two parts that are
    unescaped on their own, and a text without occurrence is returned as
    it is.  The kernel arguments, the multiboot arguments and the
    arguments of a module are the tokens after the path joined with
    spaces and passed through this same function. *)
Theorem unescaping_rule :
  (forall text, unquote grubV1 text = text) /\
  (forall a b,
      unquote grubV2 (a ++ "\$" ++ b)
      = unquote grubV2 a ++ "$" ++ unquote grubV2 b) /\
  (forall text, contains "\$" text = false -> unquote grubV2 text = text) /\
  (unquote grubV2 "\$foo" = "$foo" /\ unquote grubV1 "\$foo" = "\$foo") /\
  (forall ver basedir c line s0 s1 args,
      tokens line = s0 :: s1 :: args ->
      (is_linux s0 = true ->
       KernelArgs (directive ver basedir c line)
       = unquote ver (strings.Join args " ")) /\
      (s0 = "multiboot" ->
       MultibootArgs (directive ver basedir c line)
       = unquote ver (strings.Join args " ")) /\
      (s0 = "module" ->
       Modules (directive ver basedir c line)
       = (Modules c ++
          [ if String.eqb (unquote ver (strings.Join args " ")) ""
            then path.Join basedir s1
            else (path.Join basedir s1 ++ " "
                  ++ unquote ver (strings.Join args " "))%string ])%list)).
Proof.
  split; [reflexivity|].
  split; [intros a b; apply replace_scan_app; now left|].
  split; [intros text; apply replace_scan_absent|].
  split; [split; reflexivity|].
  intros ver basedir c line s0 s1 args Ht.
  split; [|split].
  - intros Hk. now rewrite (directive_linux ver basedir c _ _ _ _ Ht Hk).
  - intros ->. now rewrite (directive_multiboot ver basedir c _ _ _ Ht).
  - intros ->. rewrite (directive_module ver basedir c _ _ _ Ht).
    unfold module_of. now rewrite Ht.
Qed.

Lemma unescaping_rule_witness :
  unquote grubV2 ("a=" ++ "\$" ++ "b") = "a=$b" /\
  unquote grubV2 "a=\b $c" = "a=\b $c" /\
  KernelArgs (directive grubV2 "/mnt" new_BootConfig "linux /k a=\$b")
  = "a=$b" /\
  MultibootArgs (directive grubV1 "/mnt" new_BootConfig "multiboot /k a=\$b")
  = "a=\$b" /\
  Modules (directive grubV2 "/mnt" new_BootConfig "module /m a=\$b")
  = ["/mnt/m a=$b"].
Proof.
  destruct unescaping_rule as (_ & Happ & Habs & _ & Hsite).
  split; [rewrite Happ; reflexivity|].
  split; [apply Habs; reflexivity|].
  split.
  { destruct (Hsite grubV2 "/mnt" new_BootConfig "linux /k a=\$b"
                "linux" "/k" ["a=\$b"] eq_refl) as (H & _ & _).
    rewrite H; reflexivity. }
  split.
  { destruct (Hsite grubV1 "/mnt" new_BootConfig "multiboot /k a=\$b"
                "multiboot" "/k" ["a=\$b"] eq_refl) as (_ & H & _).
    rewrite H; reflexivity. }
  destruct (Hsite grubV2 "/mnt" new_BootConfig "module /m a=\$b"
              "module" "/m" ["a=\$b"] eq_refl) as (_ & _ & H).
  rewrite H; reflexivity.
Defined.

(* ------------------------------------------------------------------ *)
(** ** Module lines *)
(* ------------------------------------------------------------------ *)

(** C4.  Inside an entry a line [module path args...] appends one
    string to [Modules]: the path joined with the base directory,
    followed by one space and the unescaped arguments exactly when these
    are not empty.  The modules of an entry are the strings of its
    [module] lines in the order of the lines; with the base directory
    [/mnt] the lines [module /a.ko arg1] and [module /b.ko] give
    [/mnt/a.ko arg1] and then [/mnt/b.ko]. *)
Theorem module_lines :
  forall (IsValid : BootConfig -> bool) (ver : grubVersion),
    (forall basedir bcs c line s1 args,
        tokens line = "module" :: s1 :: args ->
        parse_line IsValid ver basedir
          {| bootconfigs := bcs; inMenuEntry := true; cfg := Some c |} line
        = Some {| bootconfigs := bcs; inMenuEntry := true;
                  cfg := Some (set_Modules c
                    (Modules c ++
                     [ if String.eqb (unquote ver (strings.Join args " ")) ""
                       then path.Join basedir s1
                       else (path.Join basedir s1 ++ " "
                             ++ unquote ver (strings.Join args " "))%string
                     ])%list) |}) /\
    (forall basedir b,
        well_formed b ->
        Modules (entry_of ver basedir b)
        = flat_map (module_of ver basedir) (body b)) /\
    (valid_version ver ->
     IsValid modules_entry = true ->
     ParseGrubCfg IsValid ver modules_config "/mnt"
     = ([], Some [modules_entry])).
Proof.
  intros IsValid ver. split; [|split].
  - intros basedir bcs c line s1 args Ht.
    rewrite parse_line_inside
      by (unfold menuentry_line; now rewrite Ht).
    rewrite (directive_module ver basedir c _ _ _ Ht).
    unfold module_of. now rewrite Ht.
  - intros basedir b Hwf. unfold entry_of.
    destruct (fold_directive_frame ver basedir (body b)
                (set_Name new_BootConfig
                   (strings.Join (tl (tokens (header b))) " "))
                (well_formed_body _ Hwf)) as (_ & _ & _ & _ & ->).
    reflexivity.
  - intros Hver Hvalid. vm_compute in Hvalid.
    destruct Hver as [-> | ->]; vm_compute; rewrite Hvalid; reflexivity.
Qed.

Lemma module_lines_witness :
  parse_line IsValid_spec grubV2 "/mnt"
    {| bootconfigs := []; inMenuEntry := true;
       cfg := Some (set_Modules new_BootConfig ["/mnt/a.ko arg1"]) |}
    "  module /b.ko"
  = Some {| bootconfigs := []; inMenuEntry := true;
            cfg := Some (set_Modules new_BootConfig
                           ["/mnt/a.ko arg1"; "/mnt/b.ko"]) |}
  /\ ParseGrubCfg IsValid_spec grubV2 modules_config "/mnt"
     = ([], Some [modules_entry]).
Proof.
  destruct (module_lines IsValid_spec grubV2) as (Hline & _ & Hcfg).
  split.
  - rewrite (Hline "/mnt" [] (set_Modules new_BootConfig ["/mnt/a.ko arg1"])
               "  module /b.ko" "/b.ko" [] eq_refl).
    reflexivity.
  - apply Hcfg; [right|]; reflexivity.
Defined.

(* ------------------------------------------------------------------ *)
(** ** Repeated directives *)
(* ------------------------------------------------------------------ *)

Lemma run_block (IsValid : BootConfig -> bool) (ver : grubVersion)
    (basedir : string) (pre : list string) (b : block) :
  Forall (fun l => menuentry_line l = false) pre ->
  well_formed b ->
  run IsValid ver basedir (pre ++ block_lines b)
  = ([], Some (filter IsValid [entry_of ver basedir b])).
Proof.
  intros Hpre Hb.
  pose proof (run_blocks IsValid ver basedir pre [b] Hpre
                (Forall_cons _ Hb (Forall_nil _))) as H.
  cbn [map concat] in H. now rewrite app_nil_r in H.
Qed.



(* ------------------------------------------------------------------ *)
(** ** Lines without effect and the number of entries *)
(* ------------------------------------------------------------------ *)

(** C8.  Every text is the join of its lines.  With a valid version, a
    line made of white space is a line without token; a line without token or whose first token is no
    keyword can be inserted or removed anywhere, and any line that is
    not a [menuentry] line can be inserted or removed before the first
    [menuentry] line, without changing the result.  A configuration made
    of such leading lines followed by N menu entries (a [menuentry] line
    and the lines up to the next one) gives the valid ones among their N
    entries in the order of the text, hence exactly N entries when all
    are valid. *)
Theorem ignored_lines_and_entry_count :
  forall (IsValid : BootConfig -> bool) (ver : grubVersion)
         (basedir : string),
    valid_version ver ->
    (forall grubcfg,
        Forall one_line (strings.Split grubcfg newline) /\
        strings.Join (strings.Split grubcfg newline) nl = grubcfg) /\
    (forall line,
        all_bytes strings.asciiSpace line = true \/ white_space line ->
        tokens line = [] /\ unrecognized_line line = true) /\
    (forall l1 line l2,
        Forall one_line (l1 ++ line :: l2) ->
        unrecognized_line line = true ->
        ParseGrubCfg IsValid ver (strings.Join (l1 ++ line :: l2) nl) basedir
        = ParseGrubCfg IsValid ver (strings.Join (l1 ++ l2) nl) basedir) /\
    (forall l1 line l2,
        Forall one_line (l1 ++ line :: l2) ->
        Forall (fun l => menuentry_line l = false) (l1 ++ [line]) ->
        ParseGrubCfg IsValid ver (strings.Join (l1 ++ line :: l2) nl) basedir
        = ParseGrubCfg IsValid ver (strings.Join (l1 ++ l2) nl) basedir) /\
    (forall pre bs,
        Forall (fun l => menuentry_line l = false /\ one_line l) pre ->
        Forall well_formed bs ->
        ParseGrubCfg IsValid ver
          (strings.Join (pre ++ concat (map block_lines bs)) nl) basedir
        = ([], Some (filter IsValid (map (entry_of ver basedir) bs))) /\
        (Forall (fun b => IsValid (entry_of ver basedir b) = true) bs ->
         exists out,
           ParseGrubCfg IsValid ver
             (strings.Join (pre ++ concat (map block_lines bs)) nl) basedir
           = ([], Some out) /\
           out = map (entry_of ver basedir) bs /\
           length out = length bs)).
Proof.
  intros IsValid ver basedir Hver.
  assert (Hone : forall l1 line l2,
             Forall one_line (l1 ++ line :: l2) -> Forall one_line (l1 ++ l2)).
  { intros l1 line l2 H. apply Forall_app in H as [H1 H2].
    inversion H2; subst. apply Forall_app. now split. }
  split; [|split; [|split; [|split]]].
  - intros grubcfg. split; [apply one_line_Split | apply Join_Split].
  - intros line H.
    assert (Ht : tokens line = [])
      by (destruct H; [now apply tokens_all_space
                      | now apply tokens_white_space]).
    split; [exact Ht|]. unfold unrecognized_line. now rewrite Ht.
  - intros l1 line l2 Hl Hu.
    rewrite !(ParseGrubCfg_Join IsValid ver basedir Hver) by eauto.
    apply run_skip. intros st. now apply parse_line_unrecognized.
  - intros l1 line l2 Hl Hm.
    rewrite !(ParseGrubCfg_Join IsValid ver basedir Hver) by eauto.
    apply Forall_app in Hm as [Hm1 Hm2].
    change (l1 ++ line :: l2)%list with (l1 ++ [line] ++ l2)%list.
    rewrite !run_outside; trivial.
  - intros pre bs Hpre Hbs.
    assert (Hpre1 : Forall (fun l => menuentry_line l = false) pre).
    { eapply Forall_impl; [|exact Hpre]. now intros l [? _]. }
    assert (Hpre2 : Forall one_line pre).
    { eapply Forall_impl; [|exact Hpre]. now intros l [_ ?]. }
    assert (E : ParseGrubCfg IsValid ver
                  (strings.Join (pre ++ concat (map block_lines bs)) nl)
                  basedir
                = ([], Some (filter IsValid (map (entry_of ver basedir) bs)))).
    { rewrite (ParseGrubCfg_Join IsValid ver basedir Hver)
        by (apply Forall_app; split;
            [exact Hpre2 | now apply one_line_blocks]).
      now apply run_blocks. }
    split; [exact E|].
    intros Hall. exists (map (entry_of ver basedir) bs).
    split; [|split; [reflexivity | apply length_map]].
    rewrite E. do 2 f_equal. apply filter_all_true.
    now apply Forall_map.
Qed.

Lemma ignored_lines_and_entry_count_witness :
  ParseGrubCfg IsValid_spec grubV2
    (strings.Join (["menuentry a"; "linux /k"] ++ "   " :: ["initrd /i"]) nl)
    "/mnt"
  = ParseGrubCfg IsValid_spec grubV2
      (strings.Join (["menuentry a"; "linux /k"] ++ ["initrd /i"]) nl) "/mnt"
  /\
  ParseGrubCfg IsValid_spec grubV2
    (strings.Join
       (["# header"; ""] ++
        concat (map block_lines
          [ {| header := "menuentry a {"; body := ["linux /k"; "}"; ""] |};
            {| header := "menuentry b {";
               body := ["echo loading"; "multiboot /x"; "}"] |} ])) nl)
    "/mnt"
  = ([], Some [ set_Kernel (set_Name new_BootConfig "a {") "/mnt/k";
                set_Multiboot (set_Name new_BootConfig "b {") "/mnt/x" ]).
Proof.
  destruct (ignored_lines_and_entry_count IsValid_spec grubV2 "/mnt")
    as (_ & _ & Hskip & _ & Hblocks); [right; reflexivity|].
  split.
  - apply Hskip; [repeat constructor | reflexivity].
  - destruct (Hblocks ["# header"; ""]
                [ {| header := "menuentry a {";
                     body := ["linux /k"; "}"; ""] |};
                  {| header := "menuentry b {";
                     body := ["echo loading"; "multiboot /x"; "}"] |} ])
      as [H _].
    + repeat constructor.
    + repeat constructor.
    + rewrite H. reflexivity.
Defined.

(* ------------------------------------------------------------------ *)
(** ** The scanner *)
(* ------------------------------------------------------------------ *)

Section ScanFacts.

Variable IsValid : BootConfig -> bool.
Variable ReadFile : string -> string + error.
Variable basedir : string.

Lemma file_entries_parse (ver : grubVersion) (grubpath grubcfg : string) :
  valid_version ver ->
  ReadFile (path.Join basedir grubpath) = inl grubcfg ->
  ParseGrubCfg IsValid ver grubcfg basedir
  = ([], Some (file_entries IsValid ReadFile ver basedir grubpath)).
Proof.
  intros Hver Hr. unfold file_entries. rewrite Hr.
  destruct (ParseGrubCfg_returns IsValid ver basedir Hver grubcfg)
    as (bcs & ->).
  reflexivity.
Qed.

Lemma scan_candidate_result (ver : grubVersion) (acc : list BootConfig)
    (grubpath : string) :
  valid_version ver ->
  scan_candidate IsValid ReadFile ver basedir acc grubpath
  = (candidate_events ReadFile basedir grubpath,
     Some (acc ++ file_entries IsValid ReadFile ver basedir grubpath)%list).
Proof.
  intros Hver. unfold scan_candidate, candidate_events.
  destruct (ReadFile (path.Join basedir grubpath)) as [grubcfg|err] eqn:Hr.
  - rewrite (file_entries_parse ver grubpath grubcfg Hver Hr). reflexivity.
  - unfold file_entries. rewrite Hr. simpl. now rewrite app_nil_r.
Qed.

Lemma scan_paths_result (ver : grubVersion) (paths : list string)
    (acc : list BootConfig) :
  valid_version ver ->
  scan_paths IsValid ReadFile ver basedir paths acc
  = (flat_map (candidate_events ReadFile basedir) paths,
     Some (acc ++ concat (map (file_entries IsValid ReadFile ver basedir)
                              paths))%list).
Proof.
  intros Hver. revert acc.
  induction paths as [|p ps IH]; intros acc; simpl.
  - unfold ret. now rewrite app_nil_r.
  - rewrite (scan_candidate_result ver acc p Hver). unfold bind.
    rewrite IH. now rewrite <- app_assoc.
Qed.

Lemma ScanGrubConfigs_result :
  ScanGrubConfigs IsValid ReadFile basedir
  = (flat_map (candidate_events ReadFile basedir)
       (Grub2Paths ++ GrubLegacyPaths),
     Some (concat (map (file_entries IsValid ReadFile grubV2 basedir)
                       Grub2Paths)
           ++ concat (map (file_entries IsValid ReadFile grubV1 basedir)
                          GrubLegacyPaths))%list).
Proof.
  unfold ScanGrubConfigs.
  rewrite (scan_paths_result grubV2 Grub2Paths [] (or_intror eq_refl)).
  unfold bind.
  rewrite (scan_paths_result grubV1 GrubLegacyPaths _ (or_introl eq_refl)).
  now rewrite flat_map_app.
Qed.

Lemma attempts_candidates (paths : list string) :
  attempts (flat_map (candidate_events ReadFile basedir) paths)
  = map (path.Join basedir) paths.
Proof.
  induction paths as [|p ps IH]; simpl; [reflexivity|].
  unfold candidate_events at 1.
  destruct (ReadFile (path.Join basedir p)); simpl; now rewrite IH.
Qed.


End ScanFacts.

(** C6.  The scan tries the four version 2 candidates in the order of
    [Grub2Paths] and then the four legacy candidates in the order of
    [GrubLegacyPaths], whatever the file system holds; every file that
    can be read is parsed with the version of its list and the base
    directory of the scan, and the result is the concatenation, in this
    order, of the entries of the candidates, each in the order of its
    file. *)
Theorem scan_order :
  forall (IsValid : BootConfig -> bool)
         (ReadFile : string -> string + error) (basedir : string),
    ScanGrubConfigs IsValid ReadFile basedir
    = (flat_map (candidate_events ReadFile basedir)
         (Grub2Paths ++ GrubLegacyPaths),
       Some (concat (map (file_entries IsValid ReadFile grubV2 basedir)
                         Grub2Paths)
             ++ concat (map (file_entries IsValid ReadFile grubV1 basedir)
                            GrubLegacyPaths))%list) /\
    attempts (fst (ScanGrubConfigs IsValid ReadFile basedir))
    = map (path.Join basedir) (Grub2Paths ++ GrubLegacyPaths) /\
    (forall ver grubpath grubcfg,
        valid_version ver ->
        ReadFile (path.Join basedir grubpath) = inl grubcfg ->
        ParseGrubCfg IsValid ver grubcfg basedir
        = ([], Some (file_entries IsValid ReadFile ver basedir grubpath))).
Proof.
  intros IsValid ReadFile basedir.
  split; [apply ScanGrubConfigs_result|]. split.
  - rewrite ScanGrubConfigs_result. apply attempts_candidates.
  - intros ver grubpath grubcfg. apply file_entries_parse.
Qed.

Lemma scan_order_witness :
  attempts (fst (ScanGrubConfigs IsValid_spec legacy_only "/mnt"))
  = [ "/mnt/boot/grub2/grub.cfg"; "/mnt/boot/grub2.cfg";
      "/mnt/grub2/grub.cfg"; "/mnt/grub2.cfg";
      "/mnt/boot/grub/grub.cfg"; "/mnt/boot/grub.cfg";
      "/mnt/grub/grub.cfg"; "/mnt/grub.cfg" ] /\
  ParseGrubCfg IsValid_spec grubV1 sample_config "/mnt"
  = ([], Some (file_entries IsValid_spec legacy_only grubV1 "/mnt"
                 "grub/grub.cfg")).
Proof.
  destruct (scan_order IsValid_spec legacy_only "/mnt") as (_ & Ha & Hp).
  split.
  - rewrite Ha. reflexivity.
  - apply Hp; [left|]; reflexivity.
Defined.

(** The scan of a directory that holds a legacy [grub/grub.cfg] only. *)
Example scan_legacy_only :
  snd (ScanGrubConfigs IsValid_spec legacy_only "/mnt") = Some [sample_entry].
Proof. vm_compute. reflexivity. Qed.



(* ------------------------------------------------------------------ *)
(** ** Further properties of the parser *)
(* ------------------------------------------------------------------ *)

Section MoreLoopFacts.

Variable IsValid : BootConfig -> bool.
Variable ver : grubVersion.
Variable basedir : string.

Lemma parse_lines_inside_flag (lines : list string) (st : state) :
  good st ->
  exists st',
    parse_lines IsValid ver basedir lines st = Some st' /\ good st' /\
    inMenuEntry st' = inMenuEntry st || existsb menuentry_line lines.
Proof.
  revert st. induction lines as [|l ls IH]; intros st Hg.
  - exists st. cbn. now rewrite orb_false_r.
  - cbn [parse_lines existsb]. destruct (menuentry_line l) eqn:E.
    + rewrite (parse_line_menuentry _ _ _ _ _ E).
      edestruct IH as (st' & -> & Hg' & Hf); [constructor|].
      exists st'. split; [reflexivity|]. split; [exact Hg'|].
      rewrite Hf. cbn. now rewrite orb_true_r.
    + destruct Hg as [bcs | bcs c].
      * rewrite (parse_line_outside _ _ _ _ _ E). apply IH. constructor.
      * rewrite (parse_line_inside _ _ _ _ _ _ E).
        edestruct IH as (st' & -> & Hg' & Hf); [constructor|].
        exists st'. split; [reflexivity|]. split; [exact Hg'|].
        rewrite Hf. reflexivity.
Qed.

End MoreLoopFacts.

(** X1.  Whatever the lines, the predicate and the version, the loop of
    the parser never dereferences a nil [cfg]: it ends in a state where
    [cfg] is nil exactly when [inMenuEntry] is false, and [inMenuEntry]
    is true exactly when some line read so far started with the token
    [menuentry]; the flag is never reset. *)
Theorem loop_keeps_cfg_with_flag :
  forall (IsValid : BootConfig -> bool) (ver : grubVersion)
         (basedir : string) (lines : list string),
    exists st,
      parse_lines IsValid ver basedir lines initial = Some st /\
      inMenuEntry st = existsb menuentry_line lines /\
      (cfg st = None <-> inMenuEntry st = false) /\
      (forall more, exists st',
          parse_lines IsValid ver basedir (lines ++ more) initial = Some st' /\
          (inMenuEntry st = true -> inMenuEntry st' = true)).
Proof.
  intros IsValid ver basedir lines.
  destruct (parse_lines_inside_flag IsValid ver basedir lines initial
              (good_outside [])) as (st & E & Hg & Hf).
  exists st. split; [exact E|]. split; [exact Hf|]. split.
  - destruct Hg; cbn; split; congruence.
  - intros more. rewrite parse_lines_app, E.
    destruct (parse_lines_inside_flag IsValid ver basedir more st Hg)
      as (st' & E' & _ & Hf').
    exists st'. split; [exact E'|]. intros H. now rewrite Hf', H.
Qed.

(* ------------------------------------------------------------------ *)
(** ** Entries and [menuentry] lines *)
(* ------------------------------------------------------------------ *)

Section NameFacts.

Variable ver : grubVersion.
Variable basedir : string.

Local Abbreviation keep_all := (fun _ : BootConfig => true).

Lemma flushed_keep_all_inside (bcs : list BootConfig) (c : BootConfig) :
  flushed keep_all {| bootconfigs := bcs; inMenuEntry := true; cfg := Some c |}
  = (bcs ++ [c])%list.
Proof. reflexivity. Qed.

Lemma parse_lines_names (lines : list string) (st : state) :
  good st ->
  exists st',
    parse_lines keep_all ver basedir lines st = Some st' /\ good st' /\
    map Name (flushed keep_all st')
    = (map Name (flushed keep_all st)
       ++ map menuentry_name (filter menuentry_line lines))%list.
Proof.
  revert st. induction lines as [|l ls IH]; intros st Hg.
  - exists st. cbn. now rewrite app_nil_r.
  - cbn [parse_lines filter]. destruct (menuentry_line l) eqn:E.
    + rewrite (parse_line_menuentry _ _ _ _ _ E).
      edestruct IH as (st' & -> & Hg' & Hn); [constructor|].
      exists st'. split; [reflexivity|]. split; [exact Hg'|].
      rewrite Hn, flushed_keep_all_inside, map_app. cbn [map Name set_Name].
      now rewrite <- app_assoc.
    + destruct Hg as [bcs | bcs c].
      * rewrite (parse_line_outside _ _ _ _ _ E). apply IH. constructor.
      * rewrite (parse_line_inside _ _ _ _ _ _ E).
        edestruct IH as (st' & -> & Hg' & Hn); [constructor|].
        exists st'. split; [reflexivity|]. split; [exact Hg'|].
        rewrite Hn, !flushed_keep_all_inside, !map_app. cbn [map].
        destruct (directive_frame ver basedir c l E) as (-> & _).
        reflexivity.
Qed.

Lemma run_names (lines : list string) :
  exists pending,
    run keep_all ver basedir lines = ([], Some pending) /\
    map Name pending = map menuentry_name (filter menuentry_line lines).
Proof.
  unfold run.
  destruct (parse_lines_names lines initial (good_outside []))
    as (st & -> & Hg & Hn).
  rewrite (finish_good _ _ Hg). eexists. split; [reflexivity|]. exact Hn.
Qed.

End NameFacts.

(** X2.  For every text, the entries pending before the validity test
    are as many as the lines that start with the token [menuentry], and
    their names are, in the order of the text, the tokens that follow
    [menuentry] on these lines joined with single spaces; no directive
    changes a name.  The parser returns the valid ones among them, hence
    never more entries than the text has [menuentry] lines. *)
Theorem names_follow_menuentry_lines :
  forall (IsValid : BootConfig -> bool) (ver : grubVersion)
         (grubcfg basedir : string),
    valid_version ver ->
    exists pending,
      ParseGrubCfg (fun _ => true) ver grubcfg basedir = ([], Some pending) /\
      map Name pending
      = map menuentry_name
          (filter menuentry_line (strings.Split grubcfg newline)) /\
      ParseGrubCfg IsValid ver grubcfg basedir
      = ([], Some (filter IsValid pending)) /\
      length (filter IsValid pending)
      <= length (filter menuentry_line (strings.Split grubcfg newline)).
Proof.
  intros IsValid ver grubcfg basedir Hver.
  destruct (run_names ver basedir (strings.Split grubcfg newline))
    as (pending & E & Hn).
  exists pending.
  rewrite !(ParseGrubCfg_run _ _ _ _ Hver).
  split; [exact E|]. split; [exact Hn|].
  split; [now apply run_filter|].
  apply Nat.le_trans with (length pending); [apply filter_length_le|].
  apply (f_equal (@length string)) in Hn.
  rewrite !length_map in Hn. now rewrite Hn.
Qed.

Lemma names_follow_menuentry_lines_witness :
  exists pending,
    ParseGrubCfg (fun _ => true) grubV2 headers_config "/mnt"
    = ([], Some pending) /\
    map Name pending = ["first"; "second"].
Proof.
  destruct (names_follow_menuentry_lines IsValid_spec grubV2 headers_config
              "/mnt") as (pending & E & Hn & _); [right; reflexivity|].
  exists pending. split; [exact E|]. rewrite Hn. reflexivity.
Defined.

(* ------------------------------------------------------------------ *)
(** ** Concatenation of configurations *)
(* ------------------------------------------------------------------ *)

Section ConcatFacts.

Variable IsValid : BootConfig -> bool.
Variable ver : grubVersion.
Variable basedir : string.

Lemma save_prepend (bcs0 bcs : list BootConfig) (c : BootConfig) :
  save IsValid (bcs0 ++ bcs) c = (bcs0 ++ save IsValid bcs c)%list.
Proof. unfold save. destruct (IsValid c); [now rewrite app_assoc | easy]. Qed.

Lemma parse_line_prepend (bcs0 : list BootConfig) (st : state)
    (line : string) :
  parse_line IsValid ver basedir (prepend bcs0 st) line
  = option_map (prepend bcs0) (parse_line IsValid ver basedir st line).
Proof.
  destruct st as [bcs inside pending].
  unfold parse_line, prepend, through_cfg. simpl.
  destruct (tokens line) as [|s0 rest]; [reflexivity|].
  destruct (String.eqb s0 "menuentry").
  - simpl. unfold prepend. simpl. f_equal. f_equal.
    destruct pending as [c|]; [apply save_prepend | reflexivity].
  - destruct inside; [|reflexivity].
    destruct rest as [|s1 args]; [reflexivity|].
    destruct (is_linux s0); [now destruct pending|].
    destruct (is_initrd s0); [now destruct pending|].
    destruct (String.eqb s0 "multiboot"); [now destruct pending|].
    destruct (String.eqb s0 "module"); [now destruct pending|].
    reflexivity.
Qed.

Lemma parse_lines_prepend (bcs0 : list BootConfig) (lines : list string)
    (st : state) :
  parse_lines IsValid ver basedir lines (prepend bcs0 st)
  = option_map (prepend bcs0) (parse_lines IsValid ver basedir lines st).
Proof.
  revert st. induction lines as [|l ls IH]; intros st; [reflexivity|].
  cbn [parse_lines]. rewrite parse_line_prepend.
  destruct (parse_line IsValid ver basedir st l); [apply IH | reflexivity].
Qed.

Lemma flushed_prepend (bcs0 : list BootConfig) (st : state) :
  flushed IsValid (prepend bcs0 st) = (bcs0 ++ flushed IsValid st)%list.
Proof.
  destruct st as [bcs inside [c|]]; unfold flushed, prepend; simpl;
    [apply save_prepend | reflexivity].
Qed.

Lemma prepend_good (bcs0 : list BootConfig) (st : state) :
  good st -> good (prepend bcs0 st).
Proof. intros []; constructor. Qed.

(** The lines of a second configuration that begins with a [menuentry]
    line are read as if they were alone, apart from the entries saved
    before. *)
Lemma run_app (l1 l2 : list string) (first : string) :
  menuentry_line first = true ->
  exists out1 out2,
    run IsValid ver basedir l1 = ([], Some out1) /\
    run IsValid ver basedir (first :: l2) = ([], Some out2) /\
    run IsValid ver basedir (l1 ++ first :: l2)
    = ([], Some (out1 ++ out2)%list).
Proof.
  intros Hm. unfold run.
  destruct (parse_lines_good IsValid ver basedir l1 initial (good_outside []))
    as (st1 & E1 & Hg1).
  rewrite parse_lines_app, E1, (finish_good _ _ Hg1).
  cbn [parse_lines]. rewrite !(parse_line_menuentry _ _ _ _ _ Hm).
  set (st0 := {| bootconfigs := flushed IsValid initial; inMenuEntry := true;
                 cfg := Some (set_Name new_BootConfig
                                (strings.Join (tl (tokens first)) " ")) |}).
  replace {| bootconfigs := flushed IsValid st1; inMenuEntry := true;
             cfg := Some (set_Name new_BootConfig
                            (strings.Join (tl (tokens first)) " ")) |}
    with (prepend (flushed IsValid st1) st0)
    by (unfold prepend, st0; cbn; now rewrite app_nil_r).
  rewrite parse_lines_prepend.
  destruct (parse_lines_good IsValid ver basedir l2 st0 (good_inside _ _))
    as (st2 & -> & Hg2).
  cbn [option_map].
  rewrite (finish_good _ _ Hg2), (finish_good _ _ (prepend_good _ _ Hg2)).
  rewrite flushed_prepend.
  now exists (flushed IsValid st1), (flushed IsValid st2).
Qed.

End ConcatFacts.

(** X3.  Parsing two configurations written one after the other, the
    second beginning with a [menuentry] line, gives the entries of the
    first followed by the entries of the second: what is read before a
    [menuentry] line has no influence on the entries that begin at this
    line or after it. *)
Theorem parse_concatenation :
  forall (IsValid : BootConfig -> bool) (ver : grubVersion)
         (basedir cfg1 cfg2 : string),
    valid_version ver ->
    menuentry_line (hd "" (strings.Split cfg2 newline)) = true ->
    exists out1 out2,
      ParseGrubCfg IsValid ver cfg1 basedir = ([], Some out1) /\
      ParseGrubCfg IsValid ver cfg2 basedir = ([], Some out2) /\
      ParseGrubCfg IsValid ver (cfg1 ++ nl ++ cfg2) basedir
      = ([], Some (out1 ++ out2)%list).
Proof.
  intros IsValid ver basedir cfg1 cfg2 Hver Hm.
  rewrite !(ParseGrubCfg_run _ _ _ _ Hver).
  change (cfg1 ++ nl ++ cfg2) with (cfg1 ++ String newline cfg2).
  rewrite Split_app.
  pose proof (Split_nonempty cfg2 newline) as Hne.
  destruct (strings.Split cfg2 newline) as [|first l2]; [contradiction|].
  now apply run_app.
Qed.

Lemma parse_concatenation_witness :
  exists out1 out2,
    ParseGrubCfg IsValid_spec grubV1 sample_config "/mnt" = ([], Some out1) /\
    ParseGrubCfg IsValid_spec grubV1 modules_config "/mnt" = ([], Some out2) /\
    ParseGrubCfg IsValid_spec grubV1 (sample_config ++ nl ++ modules_config)
      "/mnt"
    = ([], Some (out1 ++ out2)%list).
Proof.
  apply (parse_concatenation IsValid_spec grubV1 "/mnt" sample_config
           modules_config).
  - left; reflexivity.
  - reflexivity.
Defined.

(* ------------------------------------------------------------------ *)
(** ** How the lines of an entry compose *)
(* ------------------------------------------------------------------ *)

Section ComposeFacts.

Variable ver : grubVersion.
Variable basedir : string.

Local Abbreviation directive' := (directive ver basedir).

(** The assignment a line performs, by the branch it takes. *)
Lemma directive_effect (line : string) :
  menuentry_line line = false ->
  match line_kind line with
  | KNone => forall c, directive' c line = c
  | KLinux => exists k a, forall c,
        directive' c line = set_KernelArgs (set_Kernel c k) a
  | KInitrd => exists i, forall c, directive' c line = set_Initramfs c i
  | KMultiboot => exists m a, forall c,
        directive' c line = set_MultibootArgs (set_Multiboot c m) a
  | KModule => exists m, forall c,
        directive' c line = set_Modules c (Modules c ++ [m])%list
  end.
Proof.
  unfold menuentry_line, line_kind, directive, parse_line.
  destruct (tokens line) as [|s0 [|s1 args]].
  - intros _ c. reflexivity.
  - intros -> c. reflexivity.
  - intros ->.
    destruct (is_linux s0); [do 2 eexists; intros c; reflexivity|].
    destruct (is_initrd s0); [eexists; intros c; reflexivity|].
    destruct (String.eqb s0 "multiboot");
      [do 2 eexists; intros c; reflexivity|].
    destruct (String.eqb s0 "module"); [eexists; intros c; reflexivity|].
    intros c. reflexivity.
Qed.

Lemma directive_commute (a b : string) (c : BootConfig) :
  menuentry_line a = false -> menuentry_line b = false ->
  line_kind a <> line_kind b \/ line_kind a = KNone ->
  directive' (directive' c a) b = directive' (directive' c b) a.
Proof.
  intros Ha Hb H.
  pose proof (directive_effect a Ha) as Ea.
  pose proof (directive_effect b Hb) as Eb.
  destruct (line_kind a), (line_kind b);
    try (exfalso; destruct H; congruence);
    repeat match goal with
           | E : exists _, _ |- _ => destruct E as [? E]
           end;
    rewrite ?Ea, ?Eb; reflexivity.
Qed.

Lemma same_but_refl (k : kind) (c : BootConfig) : same_but k c c.
Proof. unfold same_but. repeat split. Qed.

Lemma same_but_directive (k : kind) (c c' : BootConfig) (line : string) :
  menuentry_line line = false ->
  same_but k c c' -> same_but k (directive' c line) (directive' c' line).
Proof.
  intros Hl (HN & HMod & HK & HI & HM).
  pose proof (directive_effect line Hl) as E.
  destruct (line_kind line);
    repeat match goal with
           | E : exists _, _ |- _ => destruct E as [? E]
           end;
    rewrite !E; unfold same_but; cbn;
    repeat split; try tauto; try apply HK; try apply HM; try congruence;
    auto.
Qed.

Lemma same_but_fold (k : kind) (lines : list string) (c c' : BootConfig) :
  Forall (fun l => menuentry_line l = false) lines ->
  same_but k c c' ->
  same_but k (fold_left directive' lines c) (fold_left directive' lines c').
Proof.
  intros H. revert c c'. induction H as [|l ls Hl _ IH]; intros c c' Hs.
  - exact Hs.
  - cbn [fold_left]. apply IH. now apply same_but_directive.
Qed.

(** A line assigns only the fields of its kind. *)
Lemma same_but_own (line : string) (c : BootConfig) :
  menuentry_line line = false ->
  line_kind line <> KModule ->
  same_but (line_kind line) (directive' c line) c.
Proof.
  intros Hl Hk. pose proof (directive_effect line Hl) as E.
  destruct (line_kind line); try congruence;
    repeat match goal with
           | E : exists _, _ |- _ => destruct E as [? E]
           end;
    rewrite E; unfold same_but; cbn; repeat split; intros; congruence.
Qed.

(** A line overwrites what lines of its kind have assigned. *)
Lemma same_but_overwritten (line : string) (c c' : BootConfig) :
  menuentry_line line = false ->
  line_kind line <> KModule -> line_kind line <> KNone ->
  same_but (line_kind line) c c' ->
  directive' c line = directive' c' line.
Proof.
  intros Hl Hk Hn (HN & HMod & HK & HI & HM).
  pose proof (directive_effect line Hl) as E.
  destruct c as [n k ka i m ma mods], c' as [n' k' ka' i' m' ma' mods'].
  cbn in *.
  destruct (line_kind line); try congruence;
    repeat match goal with
           | E : exists _, _ |- _ => destruct E as [? E]
           end;
    rewrite !E; unfold set_KernelArgs, set_Kernel, set_Initramfs,
      set_MultibootArgs, set_Multiboot; cbn;
    repeat match goal with
           | H : ?k <> ?k' -> _ |- _ =>
               first [ specialize (H ltac:(discriminate)) | clear H ]
           end;
    repeat match goal with H : _ /\ _ |- _ => destruct H end;
    congruence.
Qed.

End ComposeFacts.

Lemma run_replace (IsValid : BootConfig -> bool) (ver : grubVersion)
    (basedir : string) (l1 xs ys l2 : list string) :
  Forall (fun l => menuentry_line l = false) xs ->
  Forall (fun l => menuentry_line l = false) ys ->
  (forall c, fold_left (directive ver basedir) xs c
             = fold_left (directive ver basedir) ys c) ->
  run IsValid ver basedir (l1 ++ xs ++ l2)
  = run IsValid ver basedir (l1 ++ ys ++ l2).
Proof.
  intros Hx Hy Heq. unfold run. rewrite !parse_lines_app.
  destruct (parse_lines_good IsValid ver basedir l1 initial (good_outside []))
    as (st & -> & Hg).
  cbv beta iota. rewrite !parse_lines_app.
  destruct Hg as [bcs | bcs c].
  - now rewrite (parse_lines_outside _ _ _ xs _ Hx),
      (parse_lines_outside _ _ _ ys _ Hy).
  - now rewrite (parse_lines_inside _ _ _ xs _ _ Hx),
      (parse_lines_inside _ _ _ ys _ _ Hy), Heq.
Qed.

(** X4.  Two consecutive lines that are not [menuentry] lines and take
    different branches of the dispatch (or of which one takes none) can
    be exchanged without changing the result: the kernel, initramfs,
    multiboot and module lines of an entry may come in any relative
    order; only the order among lines of the same kind matters. *)
Theorem different_directives_commute :
  forall (IsValid : BootConfig -> bool) (ver : grubVersion)
         (basedir : string) (l1 : list string) (a b : string)
         (l2 : list string),
    valid_version ver ->
    Forall one_line (l1 ++ a :: b :: l2) ->
    menuentry_line a = false -> menuentry_line b = false ->
    line_kind a <> line_kind b \/ line_kind a = KNone ->
    ParseGrubCfg IsValid ver (strings.Join (l1 ++ a :: b :: l2) nl) basedir
    = ParseGrubCfg IsValid ver (strings.Join (l1 ++ b :: a :: l2) nl) basedir.
Proof.
  intros IsValid ver basedir l1 a b l2 Hver Hone Ha Hb Hk.
  assert (Hone' : Forall one_line (l1 ++ b :: a :: l2)).
  { apply Forall_app in Hone as [H1 H2].
    inversion H2 as [|? ? Ha1 H3]; subst.
    inversion H3 as [|? ? Hb1 H4]; subst.
    apply Forall_app. split; [exact H1|]. now repeat constructor. }
  rewrite !(ParseGrubCfg_Join IsValid ver basedir Hver) by assumption.
  apply (run_replace IsValid ver basedir l1 [a; b] [b; a] l2).
  - now repeat constructor.
  - now repeat constructor.
  - intros c. cbn [fold_left]. now apply directive_commute.
Qed.

Lemma different_directives_commute_witness :
  ParseGrubCfg IsValid_spec grubV2
    (strings.Join (["menuentry x"] ++ "initrd /i" :: "linux /k a" :: []) nl)
    "/mnt"
  = ParseGrubCfg IsValid_spec grubV2
      (strings.Join (["menuentry x"] ++ "linux /k a" :: "initrd /i" :: []) nl)
      "/mnt".
Proof.
  apply (different_directives_commute IsValid_spec grubV2 "/mnt"
           ["menuentry x"] "initrd /i" "linux /k a" []).
  - right; reflexivity.
  - repeat constructor.
  - reflexivity.
  - reflexivity.
  - left. discriminate.
Defined.

(** X5.  Inside an entry, a kernel, initramfs or multiboot line that is
    followed, before the next [menuentry] line, by a line of the same
    kind has no effect at all: removing it leaves the whole result
    unchanged, whatever stands between the two lines. *)
Theorem overwritten_line_is_dead :
  forall (IsValid : BootConfig -> bool) (ver : grubVersion)
         (basedir : string) (l1 : list string) (a : string)
         (mid : list string) (b : string) (l2 : list string),
    valid_version ver ->
    Forall one_line (l1 ++ a :: mid ++ b :: l2) ->
    Forall (fun l => menuentry_line l = false) (a :: mid ++ [b]) ->
    line_kind a = line_kind b ->
    line_kind b <> KModule -> line_kind b <> KNone ->
    ParseGrubCfg IsValid ver
      (strings.Join (l1 ++ a :: mid ++ b :: l2) nl) basedir
    = ParseGrubCfg IsValid ver
        (strings.Join (l1 ++ mid ++ b :: l2) nl) basedir.
Proof.
  intros IsValid ver basedir l1 a mid b l2 Hver Hone Hm Hab Hmod Hnone.
  assert (Hone' : Forall one_line (l1 ++ mid ++ b :: l2)).
  { apply Forall_app in Hone as [H1 H2].
    inversion H2; subst. apply Forall_app. now split. }
  rewrite !(ParseGrubCfg_Join IsValid ver basedir Hver) by assumption.
  inversion Hm as [|? ? Ha Hmb]; subst.
  pose proof Hmb as Hmb'. apply Forall_app in Hmb' as [Hmid Hb].
  inversion Hb as [|? ? Hb1 _]; subst.
  replace (l1 ++ a :: mid ++ b :: l2)%list
    with (l1 ++ (a :: mid ++ [b]) ++ l2)%list
    by (cbn [app]; rewrite <- (app_assoc mid [b] l2); reflexivity).
  replace (l1 ++ mid ++ b :: l2)%list
    with (l1 ++ (mid ++ [b]) ++ l2)%list
    by (rewrite <- (app_assoc mid [b] l2); reflexivity).
  apply run_replace; [exact Hm | exact Hmb |].
  intros c. cbn [fold_left]. rewrite !fold_left_app. cbn [fold_left].
  apply same_but_overwritten; try assumption.
  apply same_but_fold; [exact Hmid|].
  rewrite <- Hab. apply same_but_own; [exact Ha | congruence].
Qed.

Lemma overwritten_line_is_dead_witness :
  ParseGrubCfg IsValid_spec grubV2
    (strings.Join
       (["menuentry x"] ++ "linux /old a b" :: ["initrd /i"; "module /m"]
        ++ "linuxefi /new" :: ["}"]) nl) "/mnt"
  = ParseGrubCfg IsValid_spec grubV2
      (strings.Join
         (["menuentry x"] ++ ["initrd /i"; "module /m"]
          ++ "linuxefi /new" :: ["}"]) nl) "/mnt".
Proof.
  apply (overwritten_line_is_dead IsValid_spec grubV2 "/mnt"
           ["menuentry x"] "linux /old a b" ["initrd /i"; "module /m"]
           "linuxefi /new" ["}"]).
  - right; reflexivity.
  - repeat constructor.
  - repeat constructor.
  - reflexivity.
  - discriminate.
  - discriminate.
Defined.

(* ------------------------------------------------------------------ *)
(** ** Empty fields *)
(* ------------------------------------------------------------------ *)

Section NonEmptyFacts.

Lemma fields_scan_nonempty (s : string) (k : nat) (cur : string) :
  Forall (fun t => t <> "") (strings.fields_scan s k cur).
Proof.
  assert (Hflush : forall c, Forall (fun t => t <> "") (strings.flush c)).
  { intros [|x c]; cbn; repeat constructor. discriminate. }
  revert k cur. induction s as [|c r IH]; intros k cur; cbn [strings.fields_scan].
  - apply Hflush.
  - destruct k as [|k]; [|apply IH].
    destruct (strings.space_width (String c r)); [apply IH|].
    apply Forall_app. split; [apply Hflush | apply IH].
Qed.

Lemma tokens_nonempty (line : string) :
  Forall (fun t => t <> "") (tokens line).
Proof. apply fields_scan_nonempty. Qed.

Lemma Clean_nonempty (p : string) : path.Clean p <> "".
Proof.
  unfold path.Clean. destruct p as [|c r]; [discriminate|].
  cbv zeta. destruct (path.out _); discriminate.
Qed.

Lemma Join_nonempty (a b : string) : b <> "" -> path.Join a b <> "".
Proof.
  intros Hb. unfold path.Join.
  destruct a, b; try congruence; apply Clean_nonempty.
Qed.

Lemma append_nonempty (a b : string) : a <> "" -> (a ++ b)%string <> "".
Proof. destruct a; [congruence | discriminate]. Qed.

Variable ver : grubVersion.
Variable basedir : string.

Lemma module_of_nonempty (line : string) :
  Forall (fun m => m <> "") (module_of ver basedir line).
Proof.
  unfold module_of. pose proof (tokens_nonempty line) as H.
  destruct (tokens line) as [|s0 [|s1 args]]; [constructor | constructor |].
  destruct (String.eqb s0 "module"); [|constructor].
  inversion H as [|? ? _ H1]; subst. inversion H1 as [|? ? Hs1 _]; subst.
  constructor; [|constructor].
  destruct (String.eqb _ ""); [now apply Join_nonempty|].
  now apply append_nonempty, Join_nonempty.
Qed.

(** A line of a kind assigns a non-empty path. *)
Lemma directive_sets_kernel (c : BootConfig) (line : string) :
  sets_kernel line = true -> Kernel (directive ver basedir c line) <> "".
Proof.
  unfold sets_kernel. intros H. pose proof (tokens_nonempty line) as Hne.
  destruct (tokens line) as [|s0 [|s1 args]] eqn:Ht; try discriminate.
  rewrite (directive_linux ver basedir c _ _ _ _ Ht H). cbn.
  inversion Hne as [|? ? _ H1]; subst. inversion H1; subst.
  now apply Join_nonempty.
Qed.

Lemma directive_sets_initramfs (c : BootConfig) (line : string) :
  sets_initramfs line = true -> Initramfs (directive ver basedir c line) <> "".
Proof.
  unfold sets_initramfs. intros H. pose proof (tokens_nonempty line) as Hne.
  destruct (tokens line) as [|s0 [|s1 args]] eqn:Ht; try discriminate.
  rewrite (directive_initrd ver basedir c _ _ _ _ Ht H). cbn.
  inversion Hne as [|? ? _ H1]; subst. inversion H1; subst.
  now apply Join_nonempty.
Qed.

Lemma directive_sets_multiboot (c : BootConfig) (line : string) :
  sets_multiboot line = true -> Multiboot (directive ver basedir c line) <> "".
Proof.
  unfold sets_multiboot. intros H. pose proof (tokens_nonempty line) as Hne.
  destruct (tokens line) as [|s0 [|s1 args]] eqn:Ht; try discriminate.
  apply String.eqb_eq in H. subst s0.
  rewrite (directive_multiboot ver basedir c _ _ _ Ht). cbn.
  inversion Hne as [|? ? _ H1]; subst. inversion H1; subst.
  now apply Join_nonempty.
Qed.

(** Once a path is set, the lines of the entry keep it set. *)
Lemma fold_directive_set (lines : list string) (c : BootConfig) :
  Forall (fun l => menuentry_line l = false) lines ->
  (Kernel c <> "" \/ Exists (fun l => sets_kernel l = true) lines ->
   Kernel (fold_left (directive ver basedir) lines c) <> "") /\
  (Initramfs c <> "" \/ Exists (fun l => sets_initramfs l = true) lines ->
   Initramfs (fold_left (directive ver basedir) lines c) <> "") /\
  (Multiboot c <> "" \/ Exists (fun l => sets_multiboot l = true) lines ->
   Multiboot (fold_left (directive ver basedir) lines c) <> "").
Proof.
  intros H. revert c. induction H as [|l ls Hl _ IH]; intros c.
  - cbn. repeat split; intros [Hc | Hex]; try exact Hc; inversion Hex.
  - cbn [fold_left].
    destruct (IH (directive ver basedir c l)) as (IK & II & IM).
    destruct (directive_frame ver basedir c l Hl) as (_ & DK & DI & DM & _).
    split; [|split].
    + intros Hor. apply IK.
      destruct (sets_kernel l) eqn:E;
        [left; now apply directive_sets_kernel|].
      destruct Hor as [Hc | Hex].
      * left. destruct (DK eq_refl) as [-> _]. exact Hc.
      * inversion Hex; subst; [congruence | now right].
    + intros Hor. apply II.
      destruct (sets_initramfs l) eqn:E;
        [left; now apply directive_sets_initramfs|].
      destruct Hor as [Hc | Hex].
      * left. rewrite (DI eq_refl). exact Hc.
      * inversion Hex; subst; [congruence | now right].
    + intros Hor. apply IM.
      destruct (sets_multiboot l) eqn:E;
        [left; now apply directive_sets_multiboot|].
      destruct Hor as [Hc | Hex].
      * left. destruct (DM eq_refl) as [-> _]. exact Hc.
      * inversion Hex; subst; [congruence | now right].
Qed.

Lemma not_Exists_Forall (p : string -> bool) (l : list string) :
  ~ Exists (fun x => p x = true) l -> Forall (fun x => p x = false) l.
Proof.
  induction l as [|x l IH]; intros H; constructor.
  - destruct (p x) eqn:E; [|reflexivity]. exfalso. apply H. now left.
  - apply IH. intros Hex. apply H. now right.
Qed.

Lemma Forall_false_not_Exists (p : string -> bool) (l : list string) :
  Forall (fun x => p x = false) l -> ~ Exists (fun x => p x = true) l.
Proof.
  intros H Hex. apply Exists_exists in Hex as (x & Hin & Hx).
  rewrite Forall_forall in H. specialize (H x Hin). congruence.
Qed.

Lemma entry_of_paths (b : block) :
  well_formed b ->
  (Kernel (entry_of ver basedir b) = ""
   <-> Forall (fun l => sets_kernel l = false) (body b)) /\
  (Initramfs (entry_of ver basedir b) = ""
   <-> Forall (fun l => sets_initramfs l = false) (body b)) /\
  (Multiboot (entry_of ver basedir b) = ""
   <-> Forall (fun l => sets_multiboot l = false) (body b)) /\
  Forall (fun m => m <> "") (Modules (entry_of ver basedir b)).
Proof.
  intros Hwf. pose proof (well_formed_body _ Hwf) as Hb. unfold entry_of.
  set (c0 := set_Name new_BootConfig _).
  destruct (fold_directive_frame ver basedir (body b) c0 Hb)
    as (_ & FK & FI & FM & FMod).
  destruct (fold_directive_set (body b) c0 Hb) as (SK & SI & SM).
  split; [|split; [|split]].
  - split.
    + intros E. apply not_Exists_Forall. intros Hex. apply SK; [now right|].
      exact E.
    + intros H. now destruct (FK H) as [-> _].
  - split.
    + intros E. apply not_Exists_Forall. intros Hex. apply SI; [now right|].
      exact E.
    + intros H. now rewrite (FI H).
  - split.
    + intros E. apply not_Exists_Forall. intros Hex. apply SM; [now right|].
      exact E.
    + intros H. now destruct (FM H) as [-> _].
  - rewrite FMod. cbn [Modules c0 set_Name new_BootConfig app].
    apply Forall_flat_map. apply Forall_forall. intros l _.
    apply module_of_nonempty.
Qed.

End NonEmptyFacts.

(** X6.  In a configuration with one menu entry, the kernel of the entry
    is the empty string exactly when the entry has no [linux],
    [linux16] or [linuxefi] line with a path, and likewise for the
    initramfs and the multiboot image: a line with a path always
    assigns a non-empty path, whatever the base directory, because a
    token is never empty and [path.Join] cleans to [.] at least.  No
    element of [Modules] is empty. *)
Theorem empty_path_means_no_directive :
  forall (IsValid : BootConfig -> bool) (ver : grubVersion)
         (basedir : string) (pre : list string) (b : block),
    valid_version ver ->
    Forall (fun l => menuentry_line l = false /\ one_line l) pre ->
    well_formed b ->
    exists e,
      ParseGrubCfg IsValid ver (strings.Join (pre ++ block_lines b) nl) basedir
      = ([], Some (filter IsValid [e])) /\
      (Kernel e = "" <-> Forall (fun l => sets_kernel l = false) (body b)) /\
      (Initramfs e = ""
       <-> Forall (fun l => sets_initramfs l = false) (body b)) /\
      (Multiboot e = ""
       <-> Forall (fun l => sets_multiboot l = false) (body b)) /\
      Forall (fun m => m <> "") (Modules e).
Proof.
  intros IsValid ver basedir pre b Hver Hpre Hwf.
  exists (entry_of ver basedir b). split; [|now apply entry_of_paths].
  assert (Hpre1 : Forall (fun l => menuentry_line l = false) pre).
  { eapply Forall_impl; [|exact Hpre]. now intros l [? _]. }
  assert (Hpre2 : Forall one_line pre).
  { eapply Forall_impl; [|exact Hpre]. now intros l [_ ?]. }
  rewrite (ParseGrubCfg_Join IsValid ver basedir Hver)
    by (apply Forall_app; split;
        [exact Hpre2 | apply (well_formed_one_line _ Hwf)]).
  now apply run_block.
Qed.

Lemma empty_path_means_no_directive_witness :
  exists e,
    ParseGrubCfg IsValid_spec grubV1
      (strings.Join
         ([] ++ block_lines {| header := "menuentry x";
                               body := ["linux ."; "initrd"] |}) nl) ""
    = ([], Some (filter IsValid_spec [e])) /\
    Kernel e <> "" /\ Initramfs e = "".
Proof.
  destruct (empty_path_means_no_directive IsValid_spec grubV1 "" []
              {| header := "menuentry x"; body := ["linux ."; "initrd"] |})
    as (e & He & HK & HI & _).
  - left; reflexivity.
  - constructor.
  - split; [reflexivity|]. split; [reflexivity|]. repeat constructor.
  - exists e. split; [exact He|]. split.
    + intros E. apply HK in E. inversion E; discriminate.
    + apply HI. repeat constructor.
Defined.

(* ------------------------------------------------------------------ *)
(** ** White space around the tokens of a line *)
(* ------------------------------------------------------------------ *)

Section FieldsFacts.

Ltac split_tests H :=
  repeat match type of H with
         | context [if ?b then _ else _] => destruct b eqn:?
         end.

Lemma Fields_TrimLeft (s : string) :
  strings.Fields (strings.TrimLeft s " ") = strings.Fields s.
Proof.
  induction s as [|c r IH]; [reflexivity|].
  cbn [strings.TrimLeft strings.in_cutset].
  destruct (Ascii.eqb_spec c " ") as [->|_]; cbn [orb]; [|reflexivity].
  rewrite IH. reflexivity.
Qed.

Lemma tokens_Fields (line : string) : tokens line = strings.Fields line.
Proof. apply Fields_TrimLeft. Qed.

(** The first byte of a white space rune. *)
Lemma space_rune_lead (d : ascii) (w : string) :
  space_rune (String d w) ->
  let n := nat_of_ascii d in
  n <= 13 \/ n = 32 \/ n = 194 \/ n = 225 \/ n = 226 \/ n = 227.
Proof.
  intros [_ H] n. unfold strings.space_width in H. fold n in H.
  destruct (strings.asciiSpace d) eqn:A.
  - unfold strings.asciiSpace in A. fold n in A.
    apply orb_true_iff in A as [A | A].
    + apply andb_true_iff in A as [_ A]. apply Nat.leb_le in A. now left.
    + apply Nat.eqb_eq in A. now right; left.
  - cbn [String.length] in H.
    destruct (Nat.eqb_spec n 194); [tauto|].
    destruct (Nat.eqb_spec n 225); [tauto|].
    destruct (Nat.eqb_spec n 226); [tauto|].
    destruct (Nat.eqb_spec n 227); [tauto|].
    cbn [andb] in H. exfalso.
    destruct w as [|e [|f w']]; discriminate.
Qed.

Lemma space_width_app (c : ascii) (a w b : string) :
  space_rune w ->
  strings.space_width (String c a ++ w ++ b)
  = strings.space_width (String c a).
Proof.
  intros Hw. destruct w as [|d w']; [now destruct Hw|].
  pose proof (space_rune_lead d w' Hw) as L. cbv zeta in L.
  destruct a as [|e [|f a']]; [| |reflexivity];
    unfold strings.space_width; cbn [append];
    destruct (strings.asciiSpace c); try reflexivity.
  - replace (nat_of_ascii d =? 133) with false
      by (symmetry; apply Nat.eqb_neq; lia).
    replace (nat_of_ascii d =? 160) with false
      by (symmetry; apply Nat.eqb_neq; lia).
    replace (nat_of_ascii d =? 154) with false
      by (symmetry; apply Nat.eqb_neq; lia).
    replace (nat_of_ascii d =? 128) with false
      by (symmetry; apply Nat.eqb_neq; lia).
    replace (nat_of_ascii d =? 129) with false
      by (symmetry; apply Nat.eqb_neq; lia).
    rewrite ?andb_false_r. cbn [andb orb].
    rewrite ?andb_false_r. cbn [andb orb].
    now destruct (w' ++ b).
  - destruct (_ && (_ || _)); [reflexivity|].
    assert (R : (128 <=? nat_of_ascii d) && (nat_of_ascii d <=? 138) = false).
    { destruct (Nat.leb_spec 128 (nat_of_ascii d)),
        (Nat.leb_spec (nat_of_ascii d) 138); try reflexivity; lia. }
    rewrite R.
    replace (nat_of_ascii d =? 168) with false
      by (symmetry; apply Nat.eqb_neq; lia).
    replace (nat_of_ascii d =? 169) with false
      by (symmetry; apply Nat.eqb_neq; lia).
    replace (nat_of_ascii d =? 175) with false
      by (symmetry; apply Nat.eqb_neq; lia).
    replace (nat_of_ascii d =? 159) with false
      by (symmetry; apply Nat.eqb_neq; lia).
    replace (nat_of_ascii d =? 128) with false
      by (symmetry; apply Nat.eqb_neq; lia).
    rewrite ?andb_false_r. cbn [andb orb].
    rewrite ?andb_false_r. reflexivity.
Qed.

Lemma space_width_le (s : string) :
  strings.space_width s <= String.length s.
Proof.
  unfold strings.space_width.
  destruct s as [|c [|d [|e r]]]; cbn [String.length];
    repeat match goal with
           | |- context [if ?b then _ else _] => destruct b
           end; lia.
Qed.

(** The scan of [strings.Fields] on a text with a white space rune in
    the middle. *)
Lemma fields_scan_app (a w b : string) (k : nat) (cur : string) :
  space_rune w -> k <= String.length a ->
  strings.fields_scan (a ++ w ++ b) k cur
  = (strings.fields_scan a k cur ++ strings.fields_scan b 0 "")%list.
Proof.
  intros Hw. revert k cur. induction a as [|c a IH]; intros k cur Hk.
  - cbn [String.length] in Hk. replace k with 0 by lia.
    cbn [append]. now rewrite (fields_scan_rune w b cur Hw).
  - change (String c a ++ w ++ b) with (String c (a ++ w ++ b)).
    cbn [strings.fields_scan]. destruct k as [|k].
    + change (String c (a ++ w ++ b)) with (String c a ++ w ++ b).
      rewrite (space_width_app c a w b Hw).
      pose proof (space_width_le (String c a)) as L.
      cbn [String.length] in L.
      destruct (strings.space_width (String c a)) as [|n].
      * apply IH. lia.
      * rewrite IH by lia. now rewrite app_assoc.
    + apply IH. cbn [String.length] in Hk. lia.
Qed.

Lemma Fields_app (a w b : string) :
  space_rune w ->
  strings.Fields (a ++ w ++ b)
  = (strings.Fields a ++ strings.Fields b)%list.
Proof. intros Hw. apply fields_scan_app; [exact Hw | lia]. Qed.

Lemma Fields_leading (w s : string) :
  white_space w -> strings.Fields (w ++ s) = strings.Fields s.
Proof.
  induction 1 as [|r w Hr _ IH]; [reflexivity|].
  rewrite append_assoc.
  change (r ++ w ++ s) with ("" ++ r ++ (w ++ s)).
  now rewrite (Fields_app "" r _ Hr).
Qed.

Lemma Fields_trailing (s w : string) :
  white_space w -> strings.Fields (s ++ w) = strings.Fields s.
Proof.
  induction 1 as [|r w Hr Hw IH]; [now rewrite append_empty_r|].
  rewrite (Fields_app s r w Hr), (Fields_white_space w Hw).
  apply app_nil_r.
Qed.

Lemma tokens_padding (w1 line w2 : string) :
  white_space w1 -> white_space w2 ->
  tokens (w1 ++ line ++ w2) = tokens line.
Proof.
  intros H1 H2.
  now rewrite !tokens_Fields, (Fields_leading _ _ H1), (Fields_trailing _ _ H2).
Qed.

End FieldsFacts.

Section TokenFacts.

Variable IsValid : BootConfig -> bool.
Variable ver : grubVersion.
Variable basedir : string.

(** The loop reads a line through its tokens only. *)
Lemma parse_lines_tokens (lines lines' : list string) (st : state) :
  map tokens lines = map tokens lines' ->
  parse_lines IsValid ver basedir lines st
  = parse_lines IsValid ver basedir lines' st.
Proof.
  revert lines' st. induction lines as [|l ls IH]; intros [|l' ls'] st H;
    try discriminate; [reflexivity|].
  injection H as Hl Hls. cbn [parse_lines].
  assert (E : parse_line IsValid ver basedir st l
              = parse_line IsValid ver basedir st l')
    by (unfold parse_line; now rewrite Hl).
  rewrite E. destruct (parse_line IsValid ver basedir st l'); [|reflexivity].
  now apply IH.
Qed.

Lemma run_tokens (lines lines' : list string) :
  map tokens lines = map tokens lines' ->
  run IsValid ver basedir lines = run IsValid ver basedir lines'.
Proof. intros H. unfold run. now rewrite (parse_lines_tokens _ _ _ H). Qed.

End TokenFacts.

Lemma has_byte_app (c : ascii) (a b : string) :
  has_byte c (a ++ b) = has_byte c a || has_byte c b.
Proof.
  induction a as [|d a IH]; [reflexivity|].
  cbn [append has_byte]. now rewrite IH, orb_assoc.
Qed.

Lemma white_space_cr : white_space cr.
Proof. now apply white_space_ascii. Qed.

(** X7.  The parser reads a line through [strings.Fields] only: the call
    of [strings.TrimLeft] changes nothing, and two configurations whose
    lines have the same fields give the same result.  White space
    before and after a line is therefore without effect, and a
    configuration with CRLF line endings is parsed like the same
    configuration with LF line endings. *)
Theorem lines_are_read_by_fields :
  forall (IsValid : BootConfig -> bool) (ver : grubVersion)
         (basedir : string),
    valid_version ver ->
    (forall line, tokens line = strings.Fields line) /\
    (forall w1 line w2,
        white_space w1 -> white_space w2 ->
        strings.Fields (w1 ++ line ++ w2) = strings.Fields line) /\
    (forall lines lines',
        Forall one_line lines -> Forall one_line lines' ->
        map strings.Fields lines = map strings.Fields lines' ->
        ParseGrubCfg IsValid ver (strings.Join lines nl) basedir
        = ParseGrubCfg IsValid ver (strings.Join lines' nl) basedir) /\
    (forall lines,
        Forall one_line lines ->
        ParseGrubCfg IsValid ver
          (strings.Join (map (fun l => l ++ cr) lines) nl) basedir
        = ParseGrubCfg IsValid ver (strings.Join lines nl) basedir).
Proof.
  intros IsValid ver basedir Hver.
  assert (Hsame : forall lines lines',
             Forall one_line lines -> Forall one_line lines' ->
             map strings.Fields lines = map strings.Fields lines' ->
             ParseGrubCfg IsValid ver (strings.Join lines nl) basedir
             = ParseGrubCfg IsValid ver (strings.Join lines' nl) basedir).
  { intros lines lines' H1 H2 Hf.
    rewrite !(ParseGrubCfg_Join IsValid ver basedir Hver) by assumption.
    apply run_tokens.
    rewrite (map_ext tokens strings.Fields tokens_Fields lines),
      (map_ext tokens strings.Fields tokens_Fields lines').
    exact Hf. }
  split; [exact tokens_Fields|].
  split.
  { intros w1 line w2 H1 H2.
    now rewrite (Fields_leading _ _ H1), (Fields_trailing _ _ H2). }
  split; [exact Hsame|].
  intros lines Hone. apply Hsame.
  - apply Forall_map. eapply Forall_impl; [|exact Hone].
    intros l Hl. unfold one_line in *. now rewrite has_byte_app, Hl.
  - exact Hone.
  - rewrite map_map. apply map_ext. intros l.
    apply Fields_trailing, white_space_cr.
Qed.

Lemma lines_are_read_by_fields_witness :
  ParseGrubCfg IsValid_spec grubV2
    (strings.Join (map (fun l => l ++ cr)
                     ["menuentry x {"; "  linux /k a"; "}"]) nl) "/mnt"
  = ParseGrubCfg IsValid_spec grubV2
      (strings.Join ["menuentry x {"; "  linux /k a"; "}"] nl) "/mnt".
Proof.
  destruct (lines_are_read_by_fields IsValid_spec grubV2 "/mnt")
    as (_ & _ & _ & H); [right; reflexivity|].
  apply H. repeat constructor.
Defined.

(* ------------------------------------------------------------------ *)
(** ** Where the two dialects differ *)
(* ------------------------------------------------------------------ *)

Section DialectFacts.

(** The bytes of a text other than [c]. *)
Local Abbreviation other_than c := (fun d : ascii => negb (Ascii.eqb d c)).

Lemma has_byte_all_bytes (c : ascii) (s : string) :
  has_byte c s = false -> all_bytes (other_than c) s = true.
Proof.
  induction s as [|d r IH]; cbn [has_byte all_bytes]; intros H;
    [reflexivity|].
  apply orb_false_iff in H as [Hd Hr]. now rewrite Hd, (IH Hr).
Qed.

Lemma all_bytes_app (p : ascii -> bool) (a b : string) :
  all_bytes p (a ++ b) = all_bytes p a && all_bytes p b.
Proof.
  induction a as [|c a IH]; [reflexivity|].
  cbn [append all_bytes]. now rewrite IH, andb_assoc.
Qed.

Lemma all_bytes_Split (p : ascii -> bool) (s : string) (sep : ascii) :
  all_bytes p s = true ->
  Forall (fun l => all_bytes p l = true) (strings.Split s sep).
Proof.
  induction s as [|c r IH]; cbn [all_bytes strings.Split]; intros H.
  - repeat constructor.
  - apply andb_true_iff in H as [Hc Hr]. specialize (IH Hr).
    destruct (Ascii.eqb c sep).
    + constructor; [reflexivity | exact IH].
    + destruct (strings.Split r sep) as [|h t].
      * constructor; [cbn; now rewrite Hc | constructor].
      * inversion IH; subst. constructor; [cbn; now rewrite Hc | assumption].
Qed.

Lemma all_bytes_TrimLeft (p : ascii -> bool) (s cutset : string) :
  all_bytes p s = true -> all_bytes p (strings.TrimLeft s cutset) = true.
Proof.
  induction s as [|c r IH]; cbn [all_bytes strings.TrimLeft]; intros H;
    [reflexivity|].
  destruct (strings.in_cutset c cutset); [|exact H].
  apply andb_true_iff in H as [_ Hr]. now apply IH.
Qed.

Lemma all_bytes_fields_scan (p : ascii -> bool) (s : string) (k : nat)
    (cur : string) :
  all_bytes p s = true -> all_bytes p cur = true ->
  Forall (fun t => all_bytes p t = true) (strings.fields_scan s k cur).
Proof.
  assert (Hflush : forall c, all_bytes p c = true ->
                             Forall (fun t => all_bytes p t = true)
                                    (strings.flush c)).
  { intros [|x c] H; cbn; repeat constructor. exact H. }
  revert k cur. induction s as [|c r IH]; intros k cur Hs Hcur;
    cbn [strings.fields_scan].
  - now apply Hflush.
  - cbn [all_bytes] in Hs. apply andb_true_iff in Hs as [Hc Hr].
    destruct k as [|k]; [|now apply IH].
    destruct (strings.space_width (String c r)).
    + apply IH; [exact Hr|]. rewrite all_bytes_app, Hcur. cbn.
      now rewrite Hc.
    + apply Forall_app. split; [now apply Hflush | now apply IH].
Qed.

Lemma all_bytes_tokens (p : ascii -> bool) (line : string) :
  all_bytes p line = true ->
  Forall (fun t => all_bytes p t = true) (tokens line).
Proof.
  intros H. apply all_bytes_fields_scan; [|reflexivity].
  now apply all_bytes_TrimLeft.
Qed.

Lemma all_bytes_Join (p : ascii -> bool) (elems : list string) :
  p " "%char = true ->
  Forall (fun t => all_bytes p t = true) elems ->
  all_bytes p (strings.Join elems " ") = true.
Proof.
  intros Hsp. unfold strings.Join.
  induction 1 as [|t ts Ht Hts IH]; [reflexivity|].
  cbn [String.concat]. destruct ts as [|t' ts']; [exact Ht|].
  rewrite !all_bytes_app, Ht, IH. cbn. now rewrite Hsp.
Qed.

(** A text without dollar sign, or without backslash, holds no escape
    sequence. *)
Lemma contains_esc_absent (s : string) :
  all_bytes (other_than "$"%char) s = true \/
  all_bytes (other_than "\"%char) s = true ->
  contains "\$" s = false.
Proof.
  induction s as [|c r IH]; intros H; [reflexivity|].
  cbn [contains]. apply orb_false_iff. split.
  - destruct (String.prefix "\$" (String c r)) eqn:E; [|reflexivity].
    exfalso. destruct (prefix_esc _ _ E) as (-> & r' & ->).
    destruct H as [H | H]; cbn in H; discriminate.
  - apply IH. cbn [all_bytes] in H.
    destruct H as [H | H]; apply andb_true_iff in H as [_ H]; tauto.
Qed.

Lemma unquote_without_esc (ver : grubVersion) (text : string) :
  contains "\$" text = false -> unquote ver text = text.
Proof.
  intros H. unfold unquote. destruct (Z.eqb ver grubV2); [|reflexivity].
  now apply replace_scan_absent.
Qed.

Variable IsValid : BootConfig -> bool.
Variable basedir : string.

Lemma parse_line_dialect (c : ascii) (st : state) (line : string) :
  c = "$"%char \/ c = "\"%char ->
  all_bytes (other_than c) line = true ->
  parse_line IsValid grubV1 basedir st line
  = parse_line IsValid grubV2 basedir st line.
Proof.
  intros Hc Hl. pose proof (all_bytes_tokens _ _ Hl) as Ht.
  unfold parse_line.
  destruct (tokens line) as [|s0 [|s1 args]]; [reflexivity | reflexivity |].
  assert (Ha : all_bytes (other_than c) (strings.Join args " ") = true).
  { inversion Ht as [|? ? _ H1]; subst. inversion H1 as [|? ? _ H2]; subst.
    apply all_bytes_Join; [|exact H2]. now destruct Hc as [-> | ->]. }
  assert (He : contains "\$" (strings.Join args " ") = false).
  { apply contains_esc_absent. destruct Hc as [-> | ->]; [left | right];
      exact Ha. }
  rewrite !(unquote_without_esc _ _ He).
  change (Z.eqb grubV1 grubV2) with false.
  change (Z.eqb grubV2 grubV2) with true. cbv iota.
  unfold strings.ReplaceAll. now rewrite (replace_scan_absent _ He).
Qed.

Lemma parse_lines_dialect (c : ascii) (lines : list string) (st : state) :
  c = "$"%char \/ c = "\"%char ->
  Forall (fun l => all_bytes (other_than c) l = true) lines ->
  parse_lines IsValid grubV1 basedir lines st
  = parse_lines IsValid grubV2 basedir lines st.
Proof.
  intros Hc H. revert st. induction H as [|l ls Hl _ IH]; intros st;
    [reflexivity|].
  cbn [parse_lines]. rewrite (parse_line_dialect c st l Hc Hl).
  destruct (parse_line IsValid grubV2 basedir st l); [apply IH | reflexivity].
Qed.

End DialectFacts.

(** X8.  The two dialects differ on escape sequences only: a
    configuration that holds no dollar sign, or no backslash, is parsed
    to the same result as GRUB legacy and as GRUB 2. *)
Theorem dialects_agree_without_escapes :
  forall (IsValid : BootConfig -> bool) (grubcfg basedir : string),
    has_byte "$" grubcfg = false \/ has_byte "\" grubcfg = false ->
    ParseGrubCfg IsValid grubV1 grubcfg basedir
    = ParseGrubCfg IsValid grubV2 grubcfg basedir.
Proof.
  intros IsValid grubcfg basedir H.
  rewrite (ParseGrubCfg_run IsValid grubV1 basedir grubcfg
             (or_introl eq_refl)),
    (ParseGrubCfg_run IsValid grubV2 basedir grubcfg (or_intror eq_refl)).
  unfold run.
  assert (E : parse_lines IsValid grubV1 basedir
                (strings.Split grubcfg newline) initial
              = parse_lines IsValid grubV2 basedir
                  (strings.Split grubcfg newline) initial).
  { destruct H as [H | H].
    - apply (parse_lines_dialect IsValid basedir "$"); [now left|].
      now apply all_bytes_Split, has_byte_all_bytes.
    - apply (parse_lines_dialect IsValid basedir "\"); [now right|].
      now apply all_bytes_Split, has_byte_all_bytes. }
  now rewrite E.
Qed.

Lemma dialects_agree_without_escapes_witness :
  ParseGrubCfg IsValid_spec grubV1 sample_config "/mnt"
  = ParseGrubCfg IsValid_spec grubV2 sample_config "/mnt".
Proof.
  apply (dialects_agree_without_escapes IsValid_spec sample_config "/mnt").
  left. reflexivity.
Defined.

(* ------------------------------------------------------------------ *)
(** ** Further properties of the scanner *)
(* ------------------------------------------------------------------ *)

Section MoreScanFacts.

Variable IsValid : BootConfig -> bool.
Variable basedir : string.

Lemma measurements_candidates (ReadFile : string -> string + error)
    (paths : list string) :
  measurements (flat_map (candidate_events ReadFile basedir) paths)
  = flat_map (fun p => match ReadFile (path.Join basedir p) with
                       | inl grubcfg => [(grubcfg, path.Join basedir p)]
                       | inr _ => []
                       end) paths.
Proof.
  induction paths as [|p ps IH]; [reflexivity|].
  cbn [flat_map]. unfold candidate_events at 1.
  destruct (ReadFile (path.Join basedir p)); cbn; now rewrite IH.
Qed.

Lemma ParseGrubCfg_valid (ver : grubVersion) (grubcfg : string) :
  Forall (fun c => IsValid c = true)
         (entries (ParseGrubCfg IsValid ver grubcfg basedir)).
Proof.
  destruct (Z.eq_dec ver grubV1) as [H1 | H1];
    [|destruct (Z.eq_dec ver grubV2) as [H2 | H2]].
  3: { unfold ParseGrubCfg. apply Z.eqb_neq in H1. apply Z.eqb_neq in H2.
       rewrite H1, H2. constructor. }
  all: assert (Hver : valid_version ver) by (unfold valid_version; tauto).
  all: destruct (ParseGrubCfg_returns (fun _ => true) ver basedir Hver grubcfg)
         as (pending & E).
  all: rewrite (ParseGrubCfg_run (fun _ => true) _ _ _ Hver) in E.
  all: rewrite (ParseGrubCfg_run IsValid _ _ _ Hver).
  all: rewrite (run_filter IsValid ver basedir _ pending E).
  all: apply Forall_filter_true.
Qed.

Lemma file_entries_valid (ReadFile : string -> string + error)
    (ver : grubVersion) (grubpath : string) :
  Forall (fun c => IsValid c = true)
         (file_entries IsValid ReadFile ver basedir grubpath).
Proof.
  unfold file_entries. destruct (ReadFile _); [|constructor].
  apply ParseGrubCfg_valid.
Qed.

Lemma Forall_concat_map {A B} (P : B -> Prop) (f : A -> list B)
    (l : list A) :
  (forall x, Forall P (f x)) -> Forall P (concat (map f l)).
Proof.
  intros H. induction l as [|x l IH]; [constructor|].
  cbn [map concat]. apply Forall_app. now split.
Qed.

Lemma flat_map_ext_on {A B} (f g : A -> list B) (l : list A) :
  (forall x, In x l -> f x = g x) -> flat_map f l = flat_map g l.
Proof.
  induction l as [|x l IH]; intros H; [reflexivity|].
  cbn [flat_map]. rewrite (H x (or_introl eq_refl)), IH; [reflexivity|].
  intros y Hy. apply H. now right.
Qed.

End MoreScanFacts.

(** X9.  The scan hands to the measurement hook, once and in the order
    of the candidates, the content and the joined path of each file it
    could read, and nothing else: a candidate that cannot be read is
    never measured. *)
Theorem scan_measures_what_it_reads :
  forall (IsValid : BootConfig -> bool)
         (ReadFile : string -> string + error) (basedir : string),
    measurements (fst (ScanGrubConfigs IsValid ReadFile basedir))
    = flat_map (fun p => match ReadFile (path.Join basedir p) with
                         | inl grubcfg => [(grubcfg, path.Join basedir p)]
                         | inr _ => []
                         end) (Grub2Paths ++ GrubLegacyPaths).
Proof.
  intros IsValid ReadFile basedir.
  rewrite ScanGrubConfigs_result. apply measurements_candidates.
Qed.

(** X10.  Every entry the scan returns satisfies the validity
    predicate, whatever the files hold. *)
Theorem scan_returns_valid_entries :
  forall (IsValid : BootConfig -> bool)
         (ReadFile : string -> string + error) (basedir : string),
    Forall (fun c => IsValid c = true)
           (entries (ScanGrubConfigs IsValid ReadFile basedir)).
Proof.
  intros IsValid ReadFile basedir.
  rewrite ScanGrubConfigs_result. unfold entries. cbn [snd].
  apply Forall_app. split; apply Forall_concat_map; intros p;
    apply file_entries_valid.
Qed.

(** X11.  The scan depends on the file system through the eight
    candidate paths only: two file systems that answer alike on these
    paths give the same events and the same entries. *)
Theorem scan_reads_candidates_only :
  forall (IsValid : BootConfig -> bool)
         (ReadFile ReadFile' : string -> string + error) (basedir : string),
    (forall p, In p (Grub2Paths ++ GrubLegacyPaths) ->
               ReadFile (path.Join basedir p)
               = ReadFile' (path.Join basedir p)) ->
    ScanGrubConfigs IsValid ReadFile basedir
    = ScanGrubConfigs IsValid ReadFile' basedir.
Proof.
  intros IsValid ReadFile ReadFile' basedir H.
  rewrite !ScanGrubConfigs_result.
  assert (He : forall p, In p (Grub2Paths ++ GrubLegacyPaths) ->
                 candidate_events ReadFile basedir p
                 = candidate_events ReadFile' basedir p).
  { intros p Hp. unfold candidate_events. now rewrite (H p Hp). }
  assert (Hf : forall ver p, In p (Grub2Paths ++ GrubLegacyPaths) ->
                 file_entries IsValid ReadFile ver basedir p
                 = file_entries IsValid ReadFile' ver basedir p).
  { intros ver p Hp. unfold file_entries. now rewrite (H p Hp). }
  f_equal.
  - apply flat_map_ext_on. exact He.
  - f_equal. f_equal; f_equal; apply map_ext_in; intros p Hp; apply Hf;
      apply in_or_app; [now left | now right].
Qed.

Lemma scan_reads_candidates_only_witness :
  ScanGrubConfigs IsValid_spec legacy_only "/mnt"
  = ScanGrubConfigs IsValid_spec
      (fun p => if String.eqb p "/mnt/etc/other.cfg" then inl modules_config
                else legacy_only p) "/mnt".
Proof.
  apply (scan_reads_candidates_only IsValid_spec legacy_only
           (fun p => if String.eqb p "/mnt/etc/other.cfg"
                     then inl modules_config else legacy_only p) "/mnt").
  intros p Hp. cbn in Hp.
  repeat (destruct Hp as [<- | Hp]; [reflexivity|]). contradiction.
Defined.

(* ------------------------------------------------------------------ *)
(** ** Absolute base directories *)
(* ------------------------------------------------------------------ *)

Section AbsoluteFacts.

(** The backtracking loop removes bytes from the end of the buffer and
    stops at index [dd] at the latest. *)
Lemma backtrack_skipn (r : list ascii) (w dd : nat) :
  length r = S w -> dd <= w ->
  exists n, path.backtrack r w dd = skipn n r /\ 1 <= n /\ dd + n <= S w.
Proof.
  revert w. induction r as [|c r IH]; intros w Hlen Hdd; [discriminate|].
  cbn [path.backtrack].
  destruct ((dd <? w) && negb (Ascii.eqb c path.slash)) eqn:E.
  - apply andb_true_iff in E as [E _]. apply Nat.ltb_lt in E.
    cbn [length] in Hlen.
    destruct (IH (w - 1)) as (n & Hn & H1 & H2); [lia | lia |].
    exists (S n). cbn [skipn]. split; [exact Hn|]. lia.
  - exists 1. cbn [skipn]. split; [reflexivity|]. lia.
Qed.

Lemma string_list_roundtrip (s : string) :
  string_of_list_ascii (list_ascii_of_string s) = s.
Proof. induction s as [|c s IH]; cbn; [reflexivity | now rewrite IH]. Qed.

Lemma length_list_ascii (s : string) :
  length (list_ascii_of_string s) = String.length s.
Proof. induction s as [|c s IH]; cbn; [reflexivity | now rewrite IH]. Qed.

Lemma absolute_append (a b : string) :
  absolute a = true -> absolute (a ++ b) = true.
Proof. now destruct a. Qed.

(** The buffer of [path.Clean] on a rooted path keeps its leading
    slash. *)
Lemma clean_elem_rooted (b : path.lazybuf) (e : string) :
  absolute (path.out b) = true -> path.dotdot b = 1 ->
  absolute (path.out (path.clean_elem true b e)) = true /\
  path.dotdot (path.clean_elem true b e) = 1.
Proof.
  intros Ha Hd. unfold path.clean_elem.
  destruct (String.eqb e ""); [now split|].
  destruct (String.eqb e "."); [now split|].
  destruct (String.eqb e "..").
  - rewrite Hd. destruct (1 <? String.length (path.out b)) eqn:E;
      [|now split].
    apply Nat.ltb_lt in E. cbn [path.out path.dotdot].
    split; [|reflexivity].
    destruct (backtrack_skipn (rev (list_ascii_of_string (path.out b)))
                (String.length (path.out b) - 1) 1)
      as (n & -> & H1 & H2).
    { rewrite length_rev, length_list_ascii. lia. }
    { lia. }
    rewrite skipn_rev, rev_involutive, length_list_ascii.
    destruct (path.out b) as [|c o]; [discriminate|].
    cbn [String.length] in *.
    replace (S (String.length o) - n) with (S (String.length o - n)) by lia.
    cbn. exact Ha.
  - cbn [path.out path.dotdot]. split; [|exact Hd].
    apply absolute_append.
    destruct (_ || _); [now apply absolute_append | exact Ha].
Qed.

Lemma fold_clean_elem_rooted (es : list string) (b : path.lazybuf) :
  absolute (path.out b) = true -> path.dotdot b = 1 ->
  absolute (path.out (fold_left (path.clean_elem true) es b)) = true.
Proof.
  revert b. induction es as [|e es IH]; intros b Ha Hd; [exact Ha|].
  cbn [fold_left].
  destruct (clean_elem_rooted b e Ha Hd) as [Ha' Hd']. now apply IH.
Qed.

Lemma Clean_absolute (p : string) :
  absolute p = true -> absolute (path.Clean p) = true.
Proof.
  destruct p as [|c r]; [discriminate|].
  cbn [absolute]. intros Hc. unfold path.Clean. rewrite Hc. cbv zeta.
  pose proof (fold_clean_elem_rooted
                (strings.Split (String c r) path.slash)
                {| path.out := "/"; path.dotdot := 1 |} eq_refl eq_refl) as H.
  destruct (path.out _); [discriminate | exact H].
Qed.

Lemma Join_absolute (a b : string) :
  absolute a = true -> absolute (path.Join a b) = true.
Proof.
  intros Ha. unfold path.Join. destruct a as [|c a]; [discriminate|].
  destruct b; apply Clean_absolute; exact Ha.
Qed.

End AbsoluteFacts.

Section AbsoluteEntries.

Variable IsValid : BootConfig -> bool.
Variable ver : grubVersion.
Variable basedir : string.
Hypothesis Hbase : absolute basedir = true.

Lemma directive_absolute (c : BootConfig) (line : string) :
  menuentry_line line = false ->
  paths_absolute c -> paths_absolute (directive ver basedir c line).
Proof.
  unfold menuentry_line, directive, parse_line.
  destruct (tokens line) as [|s0 [|s1 args]]; [easy | now intros -> |].
  intros -> (HK & HI & HM & HMod).
  pose proof (Join_absolute basedir s1 Hbase) as HJ.
  cbn [inMenuEntry].
  destruct (is_linux s0); [unfold paths_absolute; cbn; tauto|].
  destruct (is_initrd s0); [unfold paths_absolute; cbn; tauto|].
  destruct (String.eqb s0 "multiboot"); [unfold paths_absolute; cbn; tauto|].
  destruct (String.eqb s0 "module"); [|unfold paths_absolute; cbn; tauto].
  unfold paths_absolute. cbn. repeat split; try assumption.
  apply Forall_app. split; [exact HMod|]. constructor; [|constructor].
  destruct (negb _); [now apply absolute_append | exact HJ].
Qed.

Lemma new_entry_absolute (name : string) :
  paths_absolute (set_Name new_BootConfig name).
Proof. unfold paths_absolute. cbn. repeat split; auto. Qed.

Lemma flushed_absolute (st : state) :
  Forall paths_absolute (bootconfigs st) ->
  (forall c, cfg st = Some c -> paths_absolute c) ->
  Forall paths_absolute (flushed IsValid st).
Proof.
  intros Hb Hc. unfold flushed, save.
  destruct (cfg st) as [c|]; [|exact Hb].
  destruct (IsValid c); [|exact Hb].
  apply Forall_app. split; [exact Hb|]. constructor; [now apply Hc | constructor].
Qed.

Lemma parse_lines_absolute (lines : list string) (st : state) :
  good st ->
  Forall paths_absolute (bootconfigs st) ->
  (forall c, cfg st = Some c -> paths_absolute c) ->
  exists st',
    parse_lines IsValid ver basedir lines st = Some st' /\ good st' /\
    Forall paths_absolute (flushed IsValid st').
Proof.
  revert st. induction lines as [|l ls IH]; intros st Hg Hb Hc.
  - exists st. split; [reflexivity|]. split; [exact Hg|].
    now apply flushed_absolute.
  - cbn [parse_lines]. destruct (menuentry_line l) eqn:E.
    + rewrite (parse_line_menuentry _ _ _ _ _ E). apply IH.
      * constructor.
      * now apply flushed_absolute.
      * intros c [= <-]. apply new_entry_absolute.
    + destruct Hg as [bcs | bcs c0].
      * rewrite (parse_line_outside _ _ _ _ _ E). apply IH;
          [constructor | exact Hb | exact Hc].
      * rewrite (parse_line_inside _ _ _ _ _ _ E). apply IH.
        -- constructor.
        -- exact Hb.
        -- intros c [= <-]. apply directive_absolute; [exact E|].
           now apply Hc.
Qed.

Lemma ParseGrubCfg_absolute (grubcfg : string) :
  Forall paths_absolute (entries (ParseGrubCfg IsValid ver grubcfg basedir)).
Proof.
  unfold ParseGrubCfg.
  destruct (negb (Z.eqb ver grubV1) && negb (Z.eqb ver grubV2));
    [constructor|].
  destruct (parse_lines_absolute (strings.Split grubcfg newline) initial
              (good_outside []) (Forall_nil _))
    as (st & -> & Hg & Ha); [discriminate|].
  now rewrite (finish_good _ _ Hg).
Qed.

End AbsoluteEntries.

(** X12.  With a base directory that begins with a slash, every path
    the parser assigns begins with a slash: in every returned entry the
    kernel, the initramfs and the multiboot image are empty or absolute
    and every module string is absolute; so are the entries of a scan
    and the eight paths it tries to read. *)
Theorem absolute_basedir_gives_absolute_paths :
  forall (IsValid : BootConfig -> bool)
         (ReadFile : string -> string + error) (ver : grubVersion)
         (grubcfg basedir : string),
    absolute basedir = true ->
    Forall paths_absolute
           (entries (ParseGrubCfg IsValid ver grubcfg basedir)) /\
    Forall paths_absolute
           (entries (ScanGrubConfigs IsValid ReadFile basedir)) /\
    Forall (fun p => absolute p = true)
           (attempts (fst (ScanGrubConfigs IsValid ReadFile basedir))).
Proof.
  intros IsValid ReadFile ver grubcfg basedir Hbase.
  split; [now apply ParseGrubCfg_absolute|].
  rewrite ScanGrubConfigs_result. cbn [fst]. unfold entries. cbn [snd].
  split.
  - apply Forall_app. split; apply Forall_concat_map; intros p;
      unfold file_entries; destruct (ReadFile _); try constructor;
      now apply ParseGrubCfg_absolute.
  - rewrite attempts_candidates. apply Forall_map, Forall_forall.
    intros p _. now apply Join_absolute.
Qed.

Lemma absolute_basedir_gives_absolute_paths_witness :
  Forall paths_absolute
         (entries (ParseGrubCfg IsValid_spec grubV2
                     ("menuentry x" ++ nl ++ "linux ../../vmlinuz") "/mnt")).
Proof.
  apply (absolute_basedir_gives_absolute_paths IsValid_spec no_file grubV2
           ("menuentry x" ++ nl ++ "linux ../../vmlinuz") "/mnt").
  reflexivity.
Defined.
